(** * Multi-frame dialogue state tracking: rasa/core/frames.py

    A shallow embedding of [Frame], [FrameSet] and [RuleBasedFrameTracker]
    and the properties of the frame operations and of the per-turn decision
    procedure.

    Python objects are modelled as the program has them: dictionaries as
    insertion-ordered association lists, lists as [list] with Python's index
    rule (negative indices count from the end), attribute access and
    subscription as partial operations that raise the exception Python
    raises.  Time stamps are only stored and compared, they are integers
    here. *)

From stdpp Require Import base numbers list strings.

Local Open Scope Z_scope.

(** ** Exceptions and results *)

Inductive exn : Set := IndexError | TypeError | AttributeError | KeyError.

Inductive result (A : Type) : Type :=
  | Ok (a : A)
  | Raise (e : exn).
Arguments Ok {A} a.
Arguments Raise {A} e.

#[global] Instance result_ret : MRet result := fun A a => Ok a.
#[global] Instance result_bind : MBind result := fun A B f m =>
  match m with
  | Ok a => f a
  | Raise e => Raise e
  end.

Definition res_bind {A B} (m : result A) (k : A -> result B) : result B :=
  m ≫= k.

Declare Scope res_scope.
Delimit Scope res_scope with res.
Notation "x <- m ;; k" := (res_bind m (fun x => k))
  (at level 100, m at next level, right associativity) : res_scope.

(** Code that mutates an object of type [S] and may raise: the state after
    the call comes with the outcome, so that what was written before an
    exception stays written. *)
Definition Py (S A : Type) : Type := S -> S * result A.

Definition py_ret {S A} (a : A) : Py S A := fun s => (s, Ok a).

Definition py_bind {S A B} (m : Py S A) (k : A -> Py S B) : Py S B :=
  fun s =>
    match m s with
    | (s', Ok a) => k a s'
    | (s', Raise e) => (s', Raise e)
    end.

(** A computation that only reads the state. *)
Definition py_read {S A} (f : S -> result A) : Py S A := fun s => (s, f s).

Declare Scope py_scope.
Delimit Scope py_scope with py.
Notation "x <- m ;;; k" := (py_bind m (fun x => k))
  (at level 100, m at next level, right associativity) : py_scope.
Notation "m ;;; k" := (py_bind m (fun _ => k))
  (at level 100, right associativity) : py_scope.

(** ** Python values *)

(** Slot values and frame entries: [None], text, integers. *)
Inductive pyval : Set :=
  | PyNone
  | PyStr (s : string)
  | PyInt (z : Z).

#[global] Instance pyval_eq_dec : EqDecision pyval.
Proof. solve_decision. Defined.

(** [a == b] *)
Definition py_eq (a b : pyval) : bool := bool_decide (a = b).

(** [v is not None] *)
Definition is_not_None (v : pyval) : bool :=
  match v with
  | PyNone => false
  | _ => true
  end.

(** An optional integer as a Python value. *)
Definition of_opt_int (o : option Z) : pyval :=
  match o with
  | Some z => PyInt z
  | None => PyNone
  end.

(** ** Dictionaries with text keys, in insertion order *)

Definition dict (V : Type) : Type := list (string * V).

(** [d.get(k)] *)
Fixpoint dict_get {V} (d : dict V) (k : string) : option V :=
  match d with
  | [] => None
  | (k', v) :: d' => if bool_decide (k' = k) then Some v else dict_get d' k
  end.

(** [d[k] = v]: an existing key keeps its place, a new one goes last. *)
Fixpoint dict_set {V} (d : dict V) (k : string) (v : V) : dict V :=
  match d with
  | [] => [(k, v)]
  | (k', v') :: d' =>
      if bool_decide (k' = k) then (k, v) :: d' else (k', v') :: dict_set d' k v
  end.

(** [d[k]] *)
Definition dict_getitem {V} (d : dict V) (k : string) : result V :=
  match dict_get d k with
  | Some v => Ok v
  | None => Raise KeyError
  end.

(** ** Lists *)

(** The position a Python list of length [n] reads at index [i]. *)
Definition list_index (n : nat) (i : Z) : option nat :=
  if bool_decide (0 <= i < Z.of_nat n) then Some (Z.to_nat i)
  else if bool_decide (- Z.of_nat n <= i < 0) then Some (Z.to_nat (Z.of_nat n + i))
  else None.

(** [l[i]] *)
Definition list_getitem {A} (l : list A) (i : Z) : result A :=
  match list_index (length l) i with
  | Some p =>
      match l !! p with
      | Some x => Ok x
      | None => Raise IndexError
      end
  | None => Raise IndexError
  end.

(** [enumerate(l)] *)
Definition enumerate {A} (l : list A) : list (nat * A) := imap pair l.

(** Stable sort on an integer key, largest first: [sorted(l, key=key,
    reverse=True)]; equal keys keep their order. *)
Fixpoint insert_desc {A} (key : A -> Z) (x : A) (l : list A) : list A :=
  match l with
  | [] => [x]
  | y :: l' =>
      if bool_decide (key x < key y) then y :: insert_desc key x l' else x :: l
  end.

Definition sorted_desc {A} (key : A -> Z) (l : list A) : list A :=
  foldr (insert_desc key) [] l.

(** ** collections.Counter, keyed by frame position *)

Definition Counter : Type := list (nat * nat).

(** [c[idx] += 1] *)
Fixpoint counter_incr (idx : nat) (c : Counter) : Counter :=
  match c with
  | [] => [(idx, 1%nat)]
  | (i, n) :: c' =>
      if bool_decide (i = idx) then (i, S n) :: c' else (i, n) :: counter_incr idx c'
  end.

(** [c.most_common()] *)
Definition most_common (c : Counter) : list (nat * nat) :=
  sorted_desc (fun p => Z.of_nat (snd p)) c.

(** ** rasa.core.slots.Slot *)

Module Slot.
(** Modelled from the spec: the class Slot is not part of the sources; the
    tracker reads its current value (possibly [None]) and its
    [frame_slot] flag, and nothing else. *)
Record t : Set := mk { value : pyval; frame_slot : bool }.
End Slot.

(** ** Frame *)

Module Frame.
(** The attributes [idx], [slots], [created] and [last_active] of a Frame.
    The entries given to [dict.__init__] are never read: [items],
    [__getitem__] and [__setitem__] all go to [self.slots]. *)
Record t : Type := mk {
  idx : Z;
  slots : dict pyval;
  created : Z;
  last_active : option Z
}.

Definition __init__ (idx : Z) (slots : dict pyval) (created : Z)
    (switch_to : bool) : t :=
  {| idx := idx;
     slots := slots;
     created := created;
     last_active := if switch_to then Some created else None |}.

(** [self.slots.get(key, None)] *)
Definition __getitem__ (self : t) (key : string) : pyval :=
  default PyNone (dict_get (slots self) key).

(** [self.slots[key] = value] *)
Definition __setitem__ (self : t) (key : string) (value : pyval) : t :=
  {| idx := idx self;
     slots := dict_set (slots self) key value;
     created := created self;
     last_active := last_active self |}.

(** [self.last_active = timestamp] *)
Definition set_last_active (timestamp : Z) (self : t) : t :=
  {| idx := idx self;
     slots := slots self;
     created := created self;
     last_active := Some timestamp |}.

(** [self.slots.items()] *)
Definition items (self : t) : list (string * pyval) := slots self.
End Frame.

(** ** Objects met where the program does not fix the type *)

(** What a name can be bound to in the loops of the tracker and in the
    mapping given to [get_framed_slots]: a plain value, a Slot or a Frame. *)
Inductive pyobj : Type :=
  | ObjVal (v : pyval)
  | ObjSlot (s : Slot.t)
  | ObjFrame (f : Frame.t).

(** [o.frame_slot] *)
Definition getattr_frame_slot (o : pyobj) : result bool :=
  match o with
  | ObjSlot s => Ok (Slot.frame_slot s)
  | _ => Raise AttributeError
  end.

(** [o.value] *)
Definition getattr_value (o : pyobj) : result pyval :=
  match o with
  | ObjSlot s => Ok (Slot.value s)
  | _ => Raise AttributeError
  end.

(** [o.last_active] *)
Definition getattr_last_active (o : pyobj) : result (option Z) :=
  match o with
  | ObjFrame f => Ok (Frame.last_active f)
  | _ => Raise AttributeError
  end.

(** [o.idx] *)
Definition getattr_idx (o : pyobj) : result Z :=
  match o with
  | ObjFrame f => Ok (Frame.idx f)
  | _ => Raise AttributeError
  end.

(** [o[key]] for a text key: a Frame answers through [Frame.__getitem__];
    text wants integer indices, and the others are not subscriptable. *)
Definition getitem (o : pyobj) (key : string) : result pyval :=
  match o with
  | ObjFrame f => Ok (Frame.__getitem__ f key)
  | _ => Raise TypeError
  end.


(** ** FrameSet *)

(** A mapping from names to Slots, seen as a mapping from names to objects. *)
Definition slot_objs (slots : dict Slot.t) : dict pyobj :=
  prod_map id ObjSlot <$> slots.

(** A mapping from names to plain values, seen the same way. *)
Definition val_objs (slots : dict pyval) : dict pyobj :=
  prod_map id ObjVal <$> slots.

Module FrameSet.
(** [init_slots] and [created] are the two entries given to [dict.__init__];
    [frames] and [current_frame_idx] are attributes.  Every Frame in
    [frames] is an object of its own, made by [__init__] or [add_frame]. *)
Record t : Type := mk {
  init_slots : dict Slot.t;
  created : Z;
  frames : list Frame.t;
  current_frame_idx : option Z
}.

(** The comprehension of [get_framed_slots], entry by entry. *)
Fixpoint framed_slots_into (items : list (string * pyobj)) (acc : dict pyval)
    : result (dict pyval) :=
  match items with
  | [] => Ok acc
  | (name, slot) :: rest =>
      (is_framed <- getattr_frame_slot slot ;;
       if is_framed then
         v <- getattr_value slot ;;
         if is_not_None v then framed_slots_into rest (dict_set acc name v)
         else framed_slots_into rest acc
       else framed_slots_into rest acc)%res
  end.

Definition get_framed_slots (slots : dict pyobj) : result (dict pyval) :=
  framed_slots_into slots [].

Definition __init__ (init_slots : dict Slot.t) (created : Z) : result t :=
  (framed <- get_framed_slots (slot_objs init_slots) ;;
   let init_frame := Frame.__init__ 0 framed created true in
   Ok {| init_slots := init_slots;
         created := created;
         frames := [] ++ [init_frame];
         current_frame_idx := Some 0 |})%res.

(** [self.frames[self.current_frame_idx]]; [None] is no list index. *)
Definition current_frame (self : t) : result Frame.t :=
  match current_frame_idx self with
  | Some i => list_getitem (frames self) i
  | None => Raise TypeError
  end.

Definition reset : Py t unit := fun self =>
  ({| init_slots := init_slots self;
      created := created self;
      frames := [];
      current_frame_idx := None |}, Ok ()).

Definition add_frame (slots : dict pyobj) (created : Z) (switch_to : bool)
    : Py t Frame.t := fun self =>
  match get_framed_slots slots with
  | Ok framed =>
      let frame :=
        Frame.__init__ (Z.of_nat (length (frames self))) framed created switch_to in
      ({| init_slots := init_slots self;
          created := FrameSet.created self;
          frames := frames self ++ [frame];
          current_frame_idx := current_frame_idx self |}, Ok frame)
  | Raise e => (self, Raise e)
  end.

Definition __getitem__ (self : t) (idx : Z) : result Frame.t :=
  list_getitem (frames self) idx.

(** Iterating a FrameSet: the class defines no [__iter__], so the iteration
    is [dict]'s, over the keys of the two entries. *)
Definition __iter__ (self : t) : list pyobj :=
  [ObjVal (PyStr "init_slots"); ObjVal (PyStr "created")].

(** [self.frames[idx].<attribute or entry> = ...]: the Frame at [idx] is
    changed in place. *)
Definition update_frame (idx : Z) (g : Frame.t -> Frame.t) : Py t unit := fun self =>
  match list_index (length (frames self)) idx with
  | Some p =>
      ({| init_slots := init_slots self;
          created := created self;
          frames := alter g p (frames self);
          current_frame_idx := current_frame_idx self |}, Ok ())
  | None => (self, Raise IndexError)
  end.

Definition activate_frame (idx : Z) (timestamp : Z) : Py t unit := fun self =>
  let self1 :=
    {| init_slots := init_slots self;
       created := created self;
       frames := frames self;
       current_frame_idx := Some idx |} in
  update_frame idx (Frame.set_last_active timestamp) self1.

(** [self.current_frame[key] = value] *)
Definition current_frame_setitem (key : string) (value : pyval) : Py t unit :=
  fun self =>
    match current_frame_idx self with
    | Some i => update_frame i (fun f => Frame.__setitem__ f key value) self
    | None => (self, Raise TypeError)
    end.
End FrameSet.

(** ** The tracker and the utterance *)

Module DialogueStateTracker.
(** Modelled from the spec: the class DialogueStateTracker is not part of
    the sources; it exposes the live slot mapping, owns the FrameSet and
    has a current frame index of its own. *)
Record t : Type := mk {
  slots : dict Slot.t;
  frames : FrameSet.t;
  current_frame_idx : option Z
}.
End DialogueStateTracker.

Module UserUttered.
(** Modelled from the spec: the class UserUttered is not part of the
    sources; it carries a dialogue act, the entities and a time stamp. *)
Record t : Type := mk {
  intent : string;
  entities : list pyval;
  timestamp : Z
}.
End UserUttered.

(** The events a tracker update can emit; none is ever emitted. *)
Inductive Event : Type :=
  | SlotSet (key : string) (value : pyval).

(** A call on [tracker.frames]. *)
Definition on_frames {A} (m : Py FrameSet.t A) : Py DialogueStateTracker.t A :=
  fun tracker =>
    let '(fs, r) := m (DialogueStateTracker.frames tracker) in
    ({| DialogueStateTracker.slots := DialogueStateTracker.slots tracker;
        DialogueStateTracker.frames := fs;
        DialogueStateTracker.current_frame_idx :=
          DialogueStateTracker.current_frame_idx tracker |}, r).

(** [sorted(items, key=lambda f: f.last_active, reverse=True)]: the key of
    every item is taken first; with two items or more every key is compared
    with another one, and [None] cannot be compared. *)
Definition sorted_by_last_active (items : list pyobj) : result (list pyobj) :=
  (keys <- mapM getattr_last_active items ;;
   if bool_decide (2 <= length items)%nat && bool_decide (None ∈ keys)
   then Raise TypeError
   else Ok (snd <$> sorted_desc (fun p => default 0 (fst p)) (zip keys items)))%res.

(** ** RuleBasedFrameTracker *)

Module RuleBasedFrameTracker.

Definition acts_with_ref : list string :=
  ["affirm"; "canthelp"; "confirm"; "hearmore"; "inform"; "moreinfo";
   "negate"; "no_result"; "offer"; "request"; "request_compare";
   "suggest"; "switch_frame"]%string.

(** *** handle_switch_frame *)

(** The loop over [enumerate(tracker.frames)] for one framed slot. *)
Fixpoint switch_frame_scan (key : string) (value : pyval)
    (current_frame_idx : option Z) (items : list (nat * pyobj))
    (equality_counts : Counter) : result Counter :=
  match items with
  | [] => Ok equality_counts
  | (idx, frame) :: rest =>
      if bool_decide (Some (Z.of_nat idx) = current_frame_idx)
      then switch_frame_scan key value current_frame_idx rest equality_counts
      else
        (v <- getitem frame key ;;
         switch_frame_scan key value current_frame_idx rest
           (if py_eq v value then counter_incr idx equality_counts
            else equality_counts))%res
  end.

(** The loop over the framed slots. *)
Fixpoint switch_frame_loop (frames : FrameSet.t)
    (framed_slots : list (string * pyval)) (equality_counts : Counter)
    : result Counter :=
  match framed_slots with
  | [] => Ok equality_counts
  | (key, value) :: rest =>
      (current_frame <- FrameSet.current_frame frames ;;
       if py_eq (Frame.__getitem__ current_frame key) value
       then switch_frame_loop frames rest equality_counts
       else
         counts <- switch_frame_scan key value
                     (FrameSet.current_frame_idx frames)
                     (enumerate (FrameSet.__iter__ frames)) equality_counts ;;
         switch_frame_loop frames rest counts)%res
  end.

Definition handle_switch_frame (user_utterance : UserUttered.t)
    : Py DialogueStateTracker.t unit :=
  (framed_slots <- py_read (fun tracker =>
     FrameSet.get_framed_slots (slot_objs (DialogueStateTracker.slots tracker))) ;;;
   equality_counts <- py_read (fun tracker =>
     switch_frame_loop (DialogueStateTracker.frames tracker) framed_slots []) ;;;
   let best_matches := most_common equality_counts in
   let most_recent :=
     (most_recent_frames <- py_read (fun tracker =>
        sorted_by_last_active
          (FrameSet.__iter__ (DialogueStateTracker.frames tracker))) ;;;
      idx <- py_read (fun _ =>
        (frame <- list_getitem most_recent_frames 0 ;; getattr_idx frame)%res) ;;;
      on_frames (FrameSet.activate_frame idx (UserUttered.timestamp user_utterance))) in
   match best_matches with
   | (idx, count) :: _ =>
       if bool_decide (count = length framed_slots)
       then on_frames (FrameSet.activate_frame (Z.of_nat idx)
                         (UserUttered.timestamp user_utterance))
       else most_recent
   | [] => most_recent
   end)%py.

(** *** handle_inform *)

(** The loop of [handle_inform]; the answer says whether it was left by
    [break]. *)
Fixpoint inform_loop (tracker : DialogueStateTracker.t)
    (framed_slots : list (string * pyval)) : result bool :=
  match framed_slots with
  | [] => Ok false
  | (key, _) :: rest =>
      (current_frame <- FrameSet.current_frame (DialogueStateTracker.frames tracker) ;;
       slot <- dict_getitem (DialogueStateTracker.slots tracker) key ;;
       if negb (py_eq (Frame.__getitem__ current_frame key) (Slot.value slot))
       then Ok true
       else inform_loop tracker rest)%res
  end.

Definition handle_inform (user_utterance : UserUttered.t)
    : Py DialogueStateTracker.t unit :=
  (framed_slots <- py_read (fun tracker =>
     FrameSet.get_framed_slots (slot_objs (DialogueStateTracker.slots tracker))) ;;;
   left_by_break <- py_read (fun tracker => inform_loop tracker framed_slots) ;;;
   if left_by_break : bool then py_ret ()
   else
     (* the [else] of the [for]: the loop ran to its end *)
     on_frames (FrameSet.add_frame (val_objs framed_slots)
                  (UserUttered.timestamp user_utterance) true) ;;;
     py_ret ())%py.

(** *** handle_act_with_ref *)

(** The loop over [enumerate(tracker.frames)] for one framed slot. *)
Fixpoint act_with_ref_scan (key : string) (slot : pyobj)
    (items : list (nat * pyobj)) (equality_counts : Counter) : result Counter :=
  match items with
  | [] => Ok equality_counts
  | (idx, frame) :: rest =>
      (v <- getitem frame key ;;
       w <- getattr_value slot ;;
       act_with_ref_scan key slot rest
         (if py_eq v w then counter_incr idx equality_counts
          else equality_counts))%res
  end.

(** The loop over the framed slots; [slot] is bound to the values of the
    projection. *)
Fixpoint act_with_ref_loop (frames : FrameSet.t)
    (framed_slots : list (string * pyval)) (equality_counts : Counter)
    : result Counter :=
  match framed_slots with
  | [] => Ok equality_counts
  | (key, slot) :: rest =>
      (counts <- act_with_ref_scan key (ObjVal slot)
                   (enumerate (FrameSet.__iter__ frames)) equality_counts ;;
       act_with_ref_loop frames rest counts)%res
  end.

(** [sorted(best_matches, key=lambda x: tracker.frames[x[0]].created,
    reverse=True)] *)
Definition sorted_by_created (frames : FrameSet.t)
    (best_matches : list (nat * nat)) : result (list (nat * nat)) :=
  (keys <- mapM (fun x : nat * nat =>
             frame <- FrameSet.__getitem__ frames (Z.of_nat (fst x)) ;;
             Ok (Frame.created frame)) best_matches ;;
   Ok (snd <$> sorted_desc fst (zip keys best_matches)))%res.

Definition handle_act_with_ref (user_utterance : UserUttered.t)
    : Py DialogueStateTracker.t unit :=
  (framed_slots <- py_read (fun tracker =>
     FrameSet.get_framed_slots (slot_objs (DialogueStateTracker.slots tracker))) ;;;
   equality_counts <- py_read (fun tracker =>
     act_with_ref_loop (DialogueStateTracker.frames tracker) framed_slots []) ;;;
   let best_matches := most_common equality_counts in
   match best_matches with
   | [(idx, count)] =>
       if bool_decide (count = length framed_slots)
       then on_frames (FrameSet.current_frame_setitem "ref" (PyInt (Z.of_nat idx)))
       else py_ret ()
   | (_, count0) :: (_, count1) :: _ =>
       if bool_decide (count0 = count1) && bool_decide (count1 = length framed_slots)
       then
         most_recent_frame_idx <- py_read (fun tracker =>
           (by_created <- sorted_by_created
                            (DialogueStateTracker.frames tracker) best_matches ;;
            first <- list_getitem by_created 0 ;;
            Ok (fst first))%res) ;;;
         on_frames (FrameSet.current_frame_setitem "ref"
                      (PyInt (Z.of_nat most_recent_frame_idx)))
       else py_ret ()
   | [] =>
       tracker_idx <- py_read (fun tracker =>
         Ok (DialogueStateTracker.current_frame_idx tracker)) ;;;
       on_frames (FrameSet.current_frame_setitem "ref" (of_opt_int tracker_idx))
   end)%py.

(** *** update_frames *)

(** The loop of the last branch: every framed slot is written into the
    current frame. *)
Fixpoint copy_framed_slots (framed_slots : list (string * pyval))
    : Py DialogueStateTracker.t unit :=
  match framed_slots with
  | [] => py_ret ()
  | (key, value) :: rest =>
      (on_frames (FrameSet.current_frame_setitem key value) ;;;
       copy_framed_slots rest)%py
  end.

(** [tracker.frames], [tracker.current_frame] and the entities of the
    utterance are read into names that are not used again. *)
Definition update_frames (user_utterance : UserUttered.t)
    : Py DialogueStateTracker.t (list Event) :=
  (let dialogue_act := UserUttered.intent user_utterance in
   (if bool_decide (dialogue_act = "inform"%string)
    then handle_inform user_utterance
    else if bool_decide (dialogue_act = "switch_frame"%string)
    then handle_switch_frame user_utterance
    else if bool_decide (dialogue_act ∈ acts_with_ref)
    then handle_act_with_ref user_utterance
    else
      framed_slots <- py_read (fun tracker =>
        FrameSet.get_framed_slots (slot_objs (DialogueStateTracker.slots tracker))) ;;;
      copy_framed_slots framed_slots) ;;;
   py_ret [])%py.

End RuleBasedFrameTracker.

(** ** Specification vocabulary *)

(** What [get_framed_slots] computes on a mapping from names to Slots. *)
Fixpoint projection_into (slots : dict Slot.t) (acc : dict pyval) : dict pyval :=
  match slots with
  | [] => acc
  | (name, slot) :: rest =>
      if Slot.frame_slot slot && is_not_None (Slot.value slot)
      then projection_into rest (dict_set acc name (Slot.value slot))
      else projection_into rest acc
  end.

Definition projection (slots : dict Slot.t) : dict pyval :=
  projection_into slots [].

(** Frame indices are dense and increasing from 0: the frame at position
    [i] has index [i]. *)
Definition dense (self : FrameSet.t) : Prop :=
  forall (i : nat) (f : Frame.t),
    FrameSet.frames self !! i = Some f -> Frame.idx f = Z.of_nat i.

(** The FrameSet with the active index set to [idx] and nothing else
    changed. *)
Definition with_current_frame_idx (idx : option Z) (self : FrameSet.t) : FrameSet.t :=
  {| FrameSet.init_slots := FrameSet.init_slots self;
     FrameSet.created := FrameSet.created self;
     FrameSet.frames := FrameSet.frames self;
     FrameSet.current_frame_idx := idx |}.

(** The FrameSet with the frames [frames] and nothing else changed. *)
Definition with_frames (frames : list Frame.t) (self : FrameSet.t) : FrameSet.t :=
  {| FrameSet.init_slots := FrameSet.init_slots self;
     FrameSet.created := FrameSet.created self;
     FrameSet.frames := frames;
     FrameSet.current_frame_idx := FrameSet.current_frame_idx self |}.

(** The tracker with the FrameSet [frames] and nothing else changed. *)
Definition with_frame_set (frames : FrameSet.t) (tracker : DialogueStateTracker.t)
    : DialogueStateTracker.t :=
  {| DialogueStateTracker.slots := DialogueStateTracker.slots tracker;
     DialogueStateTracker.frames := frames;
     DialogueStateTracker.current_frame_idx :=
       DialogueStateTracker.current_frame_idx tracker |}.

(** ** Scenarios *)

(** The slot mapping with the one framed slot [city]. *)
Definition city (name : string) : dict Slot.t :=
  [("city"%string, Slot.mk (PyStr name) true)].

(** A slot mapping without any framed slot. *)
Definition no_framed_slot : dict Slot.t :=
  [("name"%string, Slot.mk (PyStr "Ann") false);
   ("city"%string, Slot.mk PyNone true)].

(** The FrameSet of a session that starts at time 1 in the city [name]:
    what [FrameSet.__init__ (city name) 1] builds. *)
Definition session (name : string) : FrameSet.t :=
  {| FrameSet.init_slots := city name;
     FrameSet.created := 1;
     FrameSet.frames := [Frame.mk 0 [("city"%string, PyStr name)] 1 (Some 1)];
     FrameSet.current_frame_idx := Some 0 |}.

(** The same session after [add_frame] of the city [other] at time 2. *)
Definition session_with (name other : string) (switch_to : bool) : FrameSet.t :=
  (FrameSet.add_frame (slot_objs (city other)) 2 switch_to (session name)).1.

(** The tracker of such a session when the slots say [slots]. *)
Definition tracker_of (slots : dict Slot.t) (frames : FrameSet.t)
    : DialogueStateTracker.t :=
  {| DialogueStateTracker.slots := slots;
     DialogueStateTracker.frames := frames;
     DialogueStateTracker.current_frame_idx := FrameSet.current_frame_idx frames |}.

(** An utterance with the dialogue act [act] at time 3. *)
Definition utterance (act : string) : UserUttered.t :=
  {| UserUttered.intent := act; UserUttered.entities := []; UserUttered.timestamp := 3 |}.
(** ** Vocabulary for the frames of a tracker *)

(** The frame after [frame[key] = value] for every entry of
    [framed_slots], in order. *)
Definition copy_into (frame : Frame.t) (framed_slots : list (string * pyval))
    : Frame.t :=
  foldl (fun f kv => Frame.__setitem__ f kv.1 kv.2) frame framed_slots.

(** Two states of one frame that differ in the slots at most. *)
Definition same_history (f f' : Frame.t) : Prop :=
  Frame.idx f' = Frame.idx f
  /\ Frame.created f' = Frame.created f
  /\ Frame.last_active f' = Frame.last_active f.

(** Every frame of [frs] is still there in [frs'], at its position, with
    its index, creation time and last activation. *)
Definition frames_kept (frs frs' : list Frame.t) : Prop :=
  forall (i : nat) (f : Frame.t),
    frs !! i = Some f -> exists f', frs' !! i = Some f' /\ same_history f f'.

(** What one update does to the frames: it rewrites slots in place, or it
    appends one frame whose index is the number of frames before. *)
Definition frames_step (frs frs' : list Frame.t) : Prop :=
  (length frs' = length frs /\ frames_kept frs frs')
  \/ (exists f, frs' = frs ++ [f] /\ Frame.idx f = Z.of_nat (length frs)).

(** The dialogue acts of the last branch of [update_frames]. *)
Definition other_act (act : string) : Prop :=
  act ∉ RuleBasedFrameTracker.acts_with_ref.

(** The dialogue acts that reach [handle_act_with_ref]. *)
Definition ref_act (act : string) : Prop :=
  act ∈ RuleBasedFrameTracker.acts_with_ref
  /\ act <> "inform"%string /\ act <> "switch_frame"%string.

(** * Properties *)

(** ** Lists and dictionaries *)

Lemma list_index_in_range (n : nat) (i : Z) :
  0 <= i < Z.of_nat n -> list_index n i = Some (Z.to_nat i).
Proof.
  intros Hi. unfold list_index. by rewrite bool_decide_eq_true_2.
Qed.

Lemma list_index_out_of_range (n : nat) (i : Z) :
  Z.of_nat n <= i \/ i < - Z.of_nat n -> list_index n i = None.
Proof.
  intros Hi. unfold list_index.
  rewrite !bool_decide_eq_false_2; [done | lia | lia].
Qed.

Lemma dict_get_set_eq {V} (d : dict V) (k : string) (v : V) :
  dict_get (dict_set d k v) k = Some v.
Proof.
  induction d as [|[k' v'] d IH]; simpl.
  - by rewrite bool_decide_eq_true_2.
  - case_bool_decide as Hk; simpl.
    + by rewrite bool_decide_eq_true_2.
    + by rewrite bool_decide_eq_false_2.
Qed.

Lemma dict_get_set_ne {V} (d : dict V) (k k' : string) (v : V) :
  k <> k' -> dict_get (dict_set d k v) k' = dict_get d k'.
Proof.
  intros Hne. induction d as [|[k0 v0] d IH]; simpl.
  - by rewrite bool_decide_eq_false_2.
  - case_bool_decide as Hk; simpl.
    + subst k0. by rewrite !bool_decide_eq_false_2.
    + by rewrite IH.
Qed.

(** ** The framed-slot projection *)

Lemma framed_slots_into_slots (slots : dict Slot.t) (acc : dict pyval) :
  FrameSet.framed_slots_into (slot_objs slots) acc = Ok (projection_into slots acc).
Proof.
  revert acc. induction slots as [|[name slot] rest IH]; intros acc; simpl.
  - done.
  - destruct (Slot.frame_slot slot); simpl; [|apply IH].
    destruct (is_not_None (Slot.value slot)); simpl; apply IH.
Qed.

Lemma get_framed_slots_slots (slots : dict Slot.t) :
  FrameSet.get_framed_slots (slot_objs slots) = Ok (projection slots).
Proof. apply framed_slots_into_slots. Qed.

(** A mapping that holds plain values where Slots are expected: the first
    entry already has no [frame_slot]. *)
Lemma get_framed_slots_values (framed : dict pyval) :
  framed <> [] ->
  FrameSet.get_framed_slots (val_objs framed) = Raise AttributeError.
Proof. destruct framed as [|[k v] rest]; done. Qed.

(** In the projection, a name is bound to the value of its Slot when the
    Slot is framed and has a value, and is not bound otherwise. *)
Lemma projection_into_get (slots : dict Slot.t) (acc : dict pyval) (name : string) :
  NoDup slots.*1 ->
  dict_get (projection_into slots acc) name =
    match dict_get slots name with
    | Some slot =>
        if Slot.frame_slot slot && is_not_None (Slot.value slot)
        then Some (Slot.value slot)
        else dict_get acc name
    | None => dict_get acc name
    end.
Proof.
  revert acc. induction slots as [|[k slot] rest IH]; intros acc Hnd; simpl.
  - done.
  - apply NoDup_cons in Hnd as [Hk Hnd]. simpl in Hk.
    assert (Hrest : k = name -> dict_get rest name = None).
    { intros ->. clear -Hk. induction rest as [|[k' s'] rest IH]; simpl; [done|].
      rewrite not_elem_of_cons in Hk. destruct Hk as [Hne Hk]. simpl in Hne.
      rewrite bool_decide_eq_false_2 by done. by apply IH. }
    case_bool_decide as Hkn.
    + subst k.
      destruct (Slot.frame_slot slot && is_not_None (Slot.value slot)).
      * rewrite IH by done. rewrite (Hrest eq_refl). apply dict_get_set_eq.
      * rewrite IH by done. by rewrite (Hrest eq_refl).
    + destruct (Slot.frame_slot slot && is_not_None (Slot.value slot)).
      * rewrite IH by done. by rewrite dict_get_set_ne.
      * by rewrite IH.
Qed.

Lemma projection_get (slots : dict Slot.t) (name : string) (v : pyval) :
  NoDup slots.*1 ->
  dict_get (projection slots) name = Some v <->
  exists slot, dict_get slots name = Some slot /\ Slot.frame_slot slot = true /\
               Slot.value slot = v /\ v <> PyNone.
Proof.
  intros Hnd. unfold projection. rewrite projection_into_get by done. simpl.
  destruct (dict_get slots name) as [slot|]; split.
  - destruct (Slot.frame_slot slot) eqn:Hf; simpl; [|done].
    destruct (Slot.value slot) eqn:Hv; simpl; [done| |];
      intros [= <-]; eexists; rewrite Hv; done.
  - intros (s & [= <-] & -> & <- & Hv). simpl.
    destruct (Slot.value slot); done.
  - done.
  - intros (s & ? & _); done.
Qed.

(** ** FrameSet *)

Lemma session_init (name : string) :
  FrameSet.__init__ (city name) 1 = Ok (session name).
Proof. reflexivity. Qed.

Lemma update_frame_in_range (self : FrameSet.t) (i : Z) (g : Frame.t -> Frame.t) :
  0 <= i < Z.of_nat (length (FrameSet.frames self)) ->
  FrameSet.update_frame i g self =
    (with_frames (alter g (Z.to_nat i) (FrameSet.frames self)) self, Ok ()).
Proof.
  intros Hi. unfold FrameSet.update_frame. by rewrite list_index_in_range.
Qed.

Lemma update_frame_out_of_range (self : FrameSet.t) (i : Z) (g : Frame.t -> Frame.t) :
  Z.of_nat (length (FrameSet.frames self)) <= i
    \/ i < - Z.of_nat (length (FrameSet.frames self)) ->
  FrameSet.update_frame i g self = (self, Raise IndexError).
Proof.
  intros Hi. unfold FrameSet.update_frame. by rewrite list_index_out_of_range.
Qed.

(** C6, as amended: an index [i] with [i >= n] or [i < -n], for [n] frames,
    makes [activate_frame] raise IndexError; the frames are as before, and
    the active index has already been set to [i]. *)
Theorem C6_activate_frame_out_of_range (self : FrameSet.t) (i timestamp : Z) :
  Z.of_nat (length (FrameSet.frames self)) <= i
    \/ i < - Z.of_nat (length (FrameSet.frames self)) ->
  FrameSet.activate_frame i timestamp self =
    (with_current_frame_idx (Some i) self, Raise IndexError).
Proof.
  intros Hi. unfold FrameSet.activate_frame.
  by rewrite update_frame_out_of_range.
Qed.

Lemma C6_activate_frame_out_of_range_witness :
  FrameSet.activate_frame 5 9 (session "NYC") =
    (with_current_frame_idx (Some 5) (session "NYC"), Raise IndexError).
Proof. apply C6_activate_frame_out_of_range. simpl. lia. Defined.

(** C6, as stated, fails: activating index 5 of a FrameSet with one frame
    raises IndexError and leaves the active index at 5, not at 0; and index
    -1, which is no position among the frames either, raises nothing and
    activates the last frame. *)
Lemma C6_activate_frame_not_atomic :
  (FrameSet.activate_frame 5 9 (session "NYC")).2 = Raise IndexError
  /\ (FrameSet.activate_frame 5 9 (session "NYC")).1 <> session "NYC"
  /\ FrameSet.current_frame_idx (FrameSet.activate_frame 5 9 (session "NYC")).1 = Some 5
  /\ (FrameSet.activate_frame (-1) 9 (session "NYC")).2 = Ok ()
  /\ FrameSet.current_frame_idx (FrameSet.activate_frame (-1) 9 (session "NYC")).1
       = Some (-1).
Proof. repeat split; done. Qed.

(** C7: [add_frame] on a slot mapping returns the new frame; the frame is
    the only one appended, its index is the number of frames there were,
    its slots are the framed-slot projection of the mapping, its creation
    time is the one given, its last activation is that time when
    [switch_to] is set and absent otherwise; the active index stays; and
    dense indices stay dense. *)
Theorem C7_add_frame (self : FrameSet.t) (slots : dict Slot.t) (created_at : Z)
    (switch_to : bool) :
  let frame :=
    {| Frame.idx := Z.of_nat (length (FrameSet.frames self));
       Frame.slots := projection slots;
       Frame.created := created_at;
       Frame.last_active := if switch_to then Some created_at else None |} in
  let out := FrameSet.add_frame (slot_objs slots) created_at switch_to self in
  out.2 = Ok frame
  /\ FrameSet.frames out.1 = FrameSet.frames self ++ [frame]
  /\ FrameSet.current_frame_idx out.1 = FrameSet.current_frame_idx self
  /\ (dense self -> dense out.1).
Proof.
  intros frame out. subst out. unfold FrameSet.add_frame.
  rewrite get_framed_slots_slots. simpl.
  split_and!; try done.
  intros Hdense i f. simpl. intros Hf.
  apply lookup_app_Some in Hf as [Hf | [Hlen Hf]].
  - by apply Hdense.
  - apply list_lookup_singleton_Some in Hf as [Hi <-]. simpl. lia.
Qed.

Lemma C7_add_frame_witness :
  dense (FrameSet.add_frame (slot_objs (city "LA")) 2 true (session "NYC")).1.
Proof.
  apply (C7_add_frame (session "NYC") (city "LA") 2 true).
  intros [|i] f; simpl; [intros [= <-]; reflexivity | intros [=]].
Defined.

(** C8: [activate_frame] at an index [i] within the frames sets the active
    index to [i] and the last activation of the frame at [i] to the time
    given; that frame keeps its slots, creation time and index, and every
    other frame stays as it is. *)
Theorem C8_activate_frame (self : FrameSet.t) (i timestamp : Z) :
  0 <= i < Z.of_nat (length (FrameSet.frames self)) ->
  let out := FrameSet.activate_frame i timestamp self in
  out.2 = Ok ()
  /\ FrameSet.current_frame_idx out.1 = Some i
  /\ length (FrameSet.frames out.1) = length (FrameSet.frames self)
  /\ (forall f, FrameSet.frames self !! Z.to_nat i = Some f ->
        FrameSet.frames out.1 !! Z.to_nat i =
          Some {| Frame.idx := Frame.idx f;
                  Frame.slots := Frame.slots f;
                  Frame.created := Frame.created f;
                  Frame.last_active := Some timestamp |})
  /\ (forall j, j <> Z.to_nat i ->
        FrameSet.frames out.1 !! j = FrameSet.frames self !! j).
Proof.
  intros Hi out. subst out. unfold FrameSet.activate_frame.
  rewrite update_frame_in_range by done. simpl.
  split_and!; try done.
  - apply length_alter.
  - intros f Hf. by rewrite list_lookup_alter_eq, Hf.
  - intros j Hj. by rewrite list_lookup_alter_ne.
Qed.

Lemma C8_activate_frame_witness :
  FrameSet.current_frame_idx
    (FrameSet.activate_frame 1 9 (session_with "NYC" "LA" false)).1 = Some 1.
Proof.
  apply (C8_activate_frame (session_with "NYC" "LA" false) 1 9).
  simpl. lia.
Defined.

(** ** Iterating a FrameSet *)

(** The loops over [enumerate(tracker.frames)] meet the two keys of the
    FrameSet seen as a [dict], never a Frame. *)
Lemma enumerate_frame_set (frames : FrameSet.t) :
  enumerate (FrameSet.__iter__ frames) =
    [(0%nat, ObjVal (PyStr "init_slots")); (1%nat, ObjVal (PyStr "created"))].
Proof. reflexivity. Qed.

Lemma sorted_by_last_active_frame_set (frames : FrameSet.t) :
  sorted_by_last_active (FrameSet.__iter__ frames) = Raise AttributeError.
Proof. reflexivity. Qed.

(** ** handle_switch_frame *)

Section switch_frame.
Import RuleBasedFrameTracker.

(** A framed slot that differs from the current frame stops the scan at
    the first key that is not skipped. *)
Lemma switch_frame_scan_frame_set (key : string) (value : pyval)
    (frames : FrameSet.t) (counts : Counter) :
  switch_frame_scan key value (FrameSet.current_frame_idx frames)
    (enumerate (FrameSet.__iter__ frames)) counts = Raise TypeError.
Proof.
  rewrite enumerate_frame_set. simpl.
  destruct (FrameSet.current_frame_idx frames) as [i|];
    repeat case_bool_decide; simplify_eq; done.
Qed.

Lemma switch_frame_loop_cons (frames : FrameSet.t) (key : string) (value : pyval)
    (rest : list (string * pyval)) (counts : Counter) :
  switch_frame_loop frames ((key, value) :: rest) counts =
    (current_frame <- FrameSet.current_frame frames ;;
     if py_eq (Frame.__getitem__ current_frame key) value
     then switch_frame_loop frames rest counts
     else
       counts' <- switch_frame_scan key value (FrameSet.current_frame_idx frames)
                    (enumerate (FrameSet.__iter__ frames)) counts ;;
       switch_frame_loop frames rest counts')%res.
Proof. reflexivity. Qed.

Lemma switch_frame_loop_counts (frames : FrameSet.t)
    (framed_slots : list (string * pyval)) (counts : Counter) :
  switch_frame_loop frames framed_slots [] = Ok counts -> counts = [].
Proof.
  induction framed_slots as [|[key value] rest IH].
  - by intros [= <-].
  - rewrite switch_frame_loop_cons.
    destruct (FrameSet.current_frame frames) as [current_frame|e]; [|done].
    unfold res_bind at 1. cbn [mbind result_bind].
    destruct (py_eq _ value); [done|].
    by rewrite switch_frame_scan_frame_set.
Qed.

(** Whatever the frames and the slots, [handle_switch_frame] raises and
    has changed nothing by then. *)
Lemma handle_switch_frame_raises (user_utterance : UserUttered.t)
    (tracker : DialogueStateTracker.t) :
  exists e, handle_switch_frame user_utterance tracker = (tracker, Raise e).
Proof.
  unfold handle_switch_frame, py_bind, py_read.
  rewrite get_framed_slots_slots.
  destruct (switch_frame_loop _ _ _) as [counts|e] eqn:Hloop.
  - apply switch_frame_loop_counts in Hloop as ->.
    (* no match was counted: the frames are to be sorted by activation *)
    exists AttributeError. reflexivity.
  - by eexists.
Qed.
End switch_frame.

(** ** handle_act_with_ref *)

Section act_with_ref.
Import RuleBasedFrameTracker.

Lemma act_with_ref_loop_raises (frames : FrameSet.t) (key : string)
    (slot : pyval) (rest : list (string * pyval)) (counts : Counter) :
  act_with_ref_loop frames ((key, slot) :: rest) counts = Raise TypeError.
Proof. reflexivity. Qed.

(** With a framed slot, [handle_act_with_ref] raises before any entry is
    written. *)
Lemma handle_act_with_ref_framed (user_utterance : UserUttered.t)
    (tracker : DialogueStateTracker.t) :
  projection (DialogueStateTracker.slots tracker) <> [] ->
  handle_act_with_ref user_utterance tracker = (tracker, Raise TypeError).
Proof.
  intros Hne. unfold handle_act_with_ref, py_bind, py_read.
  rewrite get_framed_slots_slots.
  destruct (projection _) as [|[key slot] rest]; done.
Qed.

(** Without any framed slot, the [ref] entry of the current frame is set
    to the tracker's current frame index. *)
Lemma handle_act_with_ref_unframed (user_utterance : UserUttered.t)
    (tracker : DialogueStateTracker.t) :
  projection (DialogueStateTracker.slots tracker) = [] ->
  handle_act_with_ref user_utterance tracker =
    on_frames
      (FrameSet.current_frame_setitem "ref"
         (of_opt_int (DialogueStateTracker.current_frame_idx tracker)))
      tracker.
Proof.
  intros Hnil. unfold handle_act_with_ref, py_bind, py_read.
  rewrite get_framed_slots_slots, Hnil. done.
Qed.
End act_with_ref.

(** ** handle_inform *)

Section inform.
Import RuleBasedFrameTracker.

(** Without any framed slot the loop runs to its end at once, and the
    [else] of the loop adds a frame. *)
Lemma handle_inform_unframed (user_utterance : UserUttered.t)
    (tracker : DialogueStateTracker.t) :
  projection (DialogueStateTracker.slots tracker) = [] ->
  handle_inform user_utterance tracker =
    (with_frame_set
       (with_frames
          (FrameSet.frames (DialogueStateTracker.frames tracker) ++
             [ {| Frame.idx :=
                    Z.of_nat (length (FrameSet.frames (DialogueStateTracker.frames tracker)));
                  Frame.slots := [];
                  Frame.created := UserUttered.timestamp user_utterance;
                  Frame.last_active := Some (UserUttered.timestamp user_utterance) |} ])
          (DialogueStateTracker.frames tracker))
       tracker, Ok ()).
Proof.
  intros Hnil. unfold handle_inform, py_bind, py_read.
  rewrite get_framed_slots_slots, Hnil. done.
Qed.

(** A run of [handle_inform] that is left by [break] changes nothing. *)
Lemma handle_inform_break (user_utterance : UserUttered.t)
    (tracker : DialogueStateTracker.t) :
  inform_loop tracker (projection (DialogueStateTracker.slots tracker)) = Ok true ->
  handle_inform user_utterance tracker = (tracker, Ok ()).
Proof.
  intros Hloop. unfold handle_inform, py_bind, py_read.
  rewrite get_framed_slots_slots, Hloop. done.
Qed.

(** A run that reaches the end of the loop with framed slots gives
    [add_frame] the projection, whose values are no Slots. *)
Lemma handle_inform_agree (user_utterance : UserUttered.t)
    (tracker : DialogueStateTracker.t) :
  projection (DialogueStateTracker.slots tracker) <> [] ->
  inform_loop tracker (projection (DialogueStateTracker.slots tracker)) = Ok false ->
  handle_inform user_utterance tracker = (tracker, Raise AttributeError).
Proof.
  intros Hne Hloop. unfold handle_inform, py_bind, py_read.
  rewrite get_framed_slots_slots, Hloop.
  unfold on_frames, FrameSet.add_frame.
  rewrite get_framed_slots_values by done.
  by destruct tracker.
Qed.
End inform.

(** ** The dialogue acts *)

(** C1 at the topic shift of the specification: the current frame holds
    NYC, the slots say LA.  The loop of [handle_inform] is left by [break],
    the [else] of the loop is skipped, and no frame is added.  When the
    slots say NYC as the frame does, the loop runs to its end and
    [add_frame] is called, on the projection, and raises. *)
Theorem C1_inform_topic_shift_adds_no_frame :
  RuleBasedFrameTracker.update_frames (utterance "inform")
      (tracker_of (city "LA") (session "NYC"))
    = (tracker_of (city "LA") (session "NYC"), Ok [])
  /\ RuleBasedFrameTracker.update_frames (utterance "inform")
       (tracker_of (city "NYC") (session "NYC"))
     = (tracker_of (city "NYC") (session "NYC"), Raise AttributeError).
Proof. split; reflexivity. Qed.

(** C2 at the exact switch of the specification: frames NYC (active) and
    LA, the slots say LA.  The scan meets the key [created] of the FrameSet
    where a Frame is expected, and raises; frame 1 is not activated. *)
Theorem C2_switch_frame_exact_match_raises :
  RuleBasedFrameTracker.update_frames (utterance "switch_frame")
      (tracker_of (city "LA") (session_with "NYC" "LA" true))
    = (tracker_of (city "LA") (session_with "NYC" "LA" true), Raise TypeError).
Proof. reflexivity. Qed.

(** C3 where one frame matches every framed slot: the only frame holds LA
    and the slots say LA.  No [ref] entry is written, the scan raises; and
    so it does when the one frame holds NYC and matches nothing. *)
Theorem C3_act_with_ref_full_match_raises :
  RuleBasedFrameTracker.update_frames (utterance "affirm")
      (tracker_of (city "LA") (session "LA"))
    = (tracker_of (city "LA") (session "LA"), Raise TypeError)
  /\ RuleBasedFrameTracker.update_frames (utterance "affirm")
       (tracker_of (city "LA") (session "NYC"))
     = (tracker_of (city "LA") (session "NYC"), Raise TypeError).
Proof. split; reflexivity. Qed.

(** C4 where two frames match every framed slot: both frames hold LA, the
    second one is the later, and the slots say LA.  No [ref] entry is
    written, the scan raises. *)
Theorem C4_act_with_ref_tie_raises :
  RuleBasedFrameTracker.update_frames (utterance "request")
      (tracker_of (city "LA") (session_with "LA" "LA" false))
    = (tracker_of (city "LA") (session_with "LA" "LA" false), Raise TypeError).
Proof. reflexivity. Qed.

(** C5 where no slot is framed: the loop of [handle_inform] has nothing to
    run over, its [else] is taken, and a frame without slots is appended. *)
Theorem C5_inform_without_framed_slot_adds_frame :
  projection no_framed_slot = []
  /\ RuleBasedFrameTracker.update_frames (utterance "inform")
       (tracker_of no_framed_slot (session "NYC"))
     = (tracker_of no_framed_slot
          (with_frames
             [ Frame.mk 0 [("city"%string, PyStr "NYC")] 1 (Some 1);
               Frame.mk 1 [] 3 (Some 3) ]
             (session "NYC")),
        Ok []).
Proof. split; reflexivity. Qed.

(** C9: a Frame read at a key it does not hold answers [None] and raises
    nothing; so, for a value that is not [None], a Frame without the key
    adds nothing to the counts, in the scan of [handle_switch_frame] and in
    the scan of [handle_act_with_ref]. *)
Theorem C9_absent_key_never_matches (frame : Frame.t) (key : string)
    (value : pyval) :
  dict_get (Frame.slots frame) key = None ->
  value <> PyNone ->
  getitem (ObjFrame frame) key = Ok PyNone
  /\ (forall current_frame_idx idx rest counts,
        RuleBasedFrameTracker.switch_frame_scan key value current_frame_idx
          ((idx, ObjFrame frame) :: rest) counts
        = RuleBasedFrameTracker.switch_frame_scan key value current_frame_idx
            rest counts)
  /\ (forall slot idx rest counts,
        (forall w, getattr_value slot = Ok w -> w = value) ->
        RuleBasedFrameTracker.act_with_ref_scan key slot
          ((idx, ObjFrame frame) :: rest) counts
        = (_ <- getattr_value slot ;;
           RuleBasedFrameTracker.act_with_ref_scan key slot rest counts)%res).
Proof.
  intros Habsent Hvalue.
  assert (Hget : Frame.__getitem__ frame key = PyNone).
  { unfold Frame.__getitem__. by rewrite Habsent. }
  assert (Hne : py_eq PyNone value = false).
  { unfold py_eq. by rewrite bool_decide_eq_false_2. }
  split_and!.
  - simpl. by rewrite Hget.
  - intros cur idx rest counts. simpl. rewrite Hget, Hne.
    by case_bool_decide.
  - intros slot idx rest counts Hslot. simpl. rewrite Hget.
    destruct (getattr_value slot) as [w|e]; simpl; [|done].
    rewrite (Hslot w eq_refl). by rewrite Hne.
Qed.

Lemma C9_absent_key_never_matches_witness :
  getitem (ObjFrame (Frame.mk 0 [("city"%string, PyStr "NYC")] 1 (Some 1))) "price"
    = Ok PyNone.
Proof.
  apply (C9_absent_key_never_matches
           (Frame.mk 0 [("city"%string, PyStr "NYC")] 1 (Some 1)) "price" (PyStr "low")).
  - reflexivity.
  - discriminate.
Defined.

(** C10: an utterance with the act [switch_frame] never ends in an
    activation; whatever the frames and their activation times,
    [update_frames] raises and the tracker is as it was. *)
Theorem C10_switch_frame_never_activates (tracker : DialogueStateTracker.t)
    (entities : list pyval) (timestamp : Z) :
  exists e,
    RuleBasedFrameTracker.update_frames
      (UserUttered.mk "switch_frame" entities timestamp) tracker
    = (tracker, Raise e).
Proof.
  destruct (handle_switch_frame_raises
              (UserUttered.mk "switch_frame" entities timestamp) tracker)
    as [e He].
  exists e. unfold RuleBasedFrameTracker.update_frames. simpl.
  unfold py_bind. by rewrite He.
Qed.


(** * Further properties *)

(** ** Dictionaries *)

Lemma dict_get_None_keys {V} (d : dict V) (k : string) :
  dict_get d k = None <-> k ∉ d.*1.
Proof.
  induction d as [|[k' v'] d IH]; simpl.
  - split; [intros _; apply not_elem_of_nil | done].
  - rewrite not_elem_of_cons. case_bool_decide as Hk.
    + split; [done | intros [Hne _]; congruence].
    + rewrite IH. split; [intros ?; split; [congruence | done] | tauto].
Qed.

Lemma dict_set_keys_in {V} (d : dict V) (k : string) (v : V) :
  k ∈ d.*1 -> (dict_set d k v).*1 = d.*1.
Proof.
  induction d as [|[k' v'] d IH]; simpl; intros Hin.
  - by apply elem_of_nil in Hin.
  - case_bool_decide as Hk; simpl; [by subst|].
    apply elem_of_cons in Hin as [-> | Hin]; [done|]. f_equal. by apply IH.
Qed.

Lemma dict_set_keys_fresh {V} (d : dict V) (k : string) (v : V) :
  k ∉ d.*1 -> (dict_set d k v).*1 = d.*1 ++ [k].
Proof.
  induction d as [|[k' v'] d IH]; simpl; intros Hin.
  - done.
  - apply not_elem_of_cons in Hin as [Hne Hin].
    rewrite bool_decide_eq_false_2 by congruence. simpl. f_equal. by apply IH.
Qed.

Lemma dict_set_fresh {V} (d : dict V) (k : string) (v : V) :
  k ∉ d.*1 -> dict_set d k v = d ++ [(k, v)].
Proof.
  induction d as [|[k' v'] d IH]; simpl; intros Hin.
  - done.
  - apply not_elem_of_cons in Hin as [Hne Hin].
    rewrite bool_decide_eq_false_2 by congruence. f_equal. by apply IH.
Qed.

Lemma dict_set_NoDup {V} (d : dict V) (k : string) (v : V) :
  NoDup d.*1 -> NoDup (dict_set d k v).*1.
Proof.
  intros Hnd. destruct (decide (k ∈ d.*1)) as [Hin | Hin].
  - by rewrite dict_set_keys_in.
  - rewrite dict_set_keys_fresh by done.
    apply NoDup_app. split_and!; [done | | apply NoDup_singleton].
    intros x Hx Hx'. apply list_elem_of_singleton in Hx'. by subst.
Qed.

Lemma dict_set_elem_of {V} (d : dict V) (k k' : string) (v v' : V) :
  (k', v') ∈ dict_set d k v -> (k', v') = (k, v) \/ (k', v') ∈ d.
Proof.
  induction d as [|[k0 v0] d IH]; simpl.
  - intros Hin. apply list_elem_of_singleton in Hin. by left.
  - case_bool_decide as Hk.
    + intros Hin. apply elem_of_cons in Hin as [-> | Hin]; [by left|].
      right. by apply list_elem_of_further.
    + intros Hin. apply elem_of_cons in Hin as [-> | Hin].
      * right. apply list_elem_of_here.
      * destruct (IH Hin) as [-> | Hd]; [by left|].
        right. by apply list_elem_of_further.
Qed.

(** ** get_framed_slots *)

Lemma projection_into_NoDup (slots : dict Slot.t) (acc : dict pyval) :
  NoDup acc.*1 -> NoDup (projection_into slots acc).*1.
Proof.
  revert acc. induction slots as [|[name slot] rest IH]; intros acc Hnd; simpl.
  - done.
  - destruct (Slot.frame_slot slot && is_not_None (Slot.value slot)).
    + apply IH. by apply dict_set_NoDup.
    + by apply IH.
Qed.

Lemma projection_NoDup (slots : dict Slot.t) : NoDup (projection slots).*1.
Proof. apply projection_into_NoDup. apply NoDup_nil_2. Qed.

Lemma projection_into_not_None (slots : dict Slot.t) (acc : dict pyval) :
  (forall name v, (name, v) ∈ acc -> v <> PyNone) ->
  forall name v, (name, v) ∈ projection_into slots acc -> v <> PyNone.
Proof.
  revert acc. induction slots as [|[k slot] rest IH]; intros acc Hacc; simpl.
  - done.
  - destruct (Slot.frame_slot slot) eqn:Hf; simpl; [|by apply IH].
    destruct (is_not_None (Slot.value slot)) eqn:Hv; [|by apply IH].
    apply IH. intros name v Hin.
    apply dict_set_elem_of in Hin as [[= -> ->] | Hin]; [|by eapply Hacc].
    by destruct (Slot.value slot).
Qed.

(** X1: on a mapping from names to Slots, [get_framed_slots] returns a
    mapping in which a name is bound to a value exactly when its Slot is
    marked [frame_slot] and holds that value, and the value is not
    [None]. *)
Theorem get_framed_slots_entries (slots : dict Slot.t) :
  NoDup slots.*1 ->
  exists framed,
    FrameSet.get_framed_slots (slot_objs slots) = Ok framed
    /\ forall name v,
         dict_get framed name = Some v <->
         exists slot, dict_get slots name = Some slot
                      /\ Slot.frame_slot slot = true
                      /\ Slot.value slot = v /\ v <> PyNone.
Proof.
  intros Hnd. exists (projection slots). split.
  - apply get_framed_slots_slots.
  - intros name v. by apply projection_get.
Qed.

Lemma get_framed_slots_entries_witness :
  exists framed,
    FrameSet.get_framed_slots (slot_objs no_framed_slot) = Ok framed
    /\ forall name v,
         dict_get framed name = Some v <->
         exists slot, dict_get no_framed_slot name = Some slot
                      /\ Slot.frame_slot slot = true
                      /\ Slot.value slot = v /\ v <> PyNone.
Proof.
  apply (get_framed_slots_entries no_framed_slot).
  by apply (bool_decide_unpack _).
Defined.

(** X2: whatever the mapping from names to Slots, the mapping that
    [get_framed_slots] returns has no name twice and no [None] value. *)
Theorem get_framed_slots_well_formed (slots : dict Slot.t) :
  exists framed,
    FrameSet.get_framed_slots (slot_objs slots) = Ok framed
    /\ NoDup framed.*1
    /\ forall name v, (name, v) ∈ framed -> v <> PyNone.
Proof.
  exists (projection slots). split_and!.
  - apply get_framed_slots_slots.
  - apply projection_NoDup.
  - apply projection_into_not_None. intros name v Hin.
    by apply elem_of_nil in Hin.
Qed.

Lemma framed_slots_into_not_slot (items : dict pyobj) (acc : dict pyval)
    (name : string) (o : pyobj) :
  (name, o) ∈ items -> (forall slot, o <> ObjSlot slot) ->
  FrameSet.framed_slots_into items acc = Raise AttributeError.
Proof.
  intros Hin Ho. revert acc.
  induction items as [|[k o'] rest IH]; intros acc.
  - by apply elem_of_nil in Hin.
  - apply elem_of_cons in Hin as [[= <- <-] | Hin].
    + simpl. destruct o as [v|slot|f]; [done | by destruct (Ho slot) | done].
    + simpl. destruct o' as [v|slot|f]; [done | | done]. simpl.
      destruct (Slot.frame_slot slot); simpl; [|by apply IH].
      destruct (is_not_None (Slot.value slot)); by apply IH.
Qed.

(** X3: a mapping with an entry that is no Slot (a plain value, a Frame)
    makes [get_framed_slots] raise AttributeError. *)
Theorem get_framed_slots_not_slot (slots : dict pyobj) (name : string) (o : pyobj) :
  (name, o) ∈ slots -> (forall slot, o <> ObjSlot slot) ->
  FrameSet.get_framed_slots slots = Raise AttributeError.
Proof. apply framed_slots_into_not_slot. Qed.

Lemma get_framed_slots_not_slot_witness :
  FrameSet.get_framed_slots
    (slot_objs (city "LA") ++ [("price"%string, ObjVal (PyStr "low"))])
  = Raise AttributeError.
Proof.
  apply (get_framed_slots_not_slot _ "price" (ObjVal (PyStr "low"))).
  - simpl. apply list_elem_of_further, list_elem_of_here.
  - discriminate.
Defined.

(** ** Frame *)

(** X4: after [frame[key] = value], reading [frame[key]] gives [value],
    every other key reads as before, and the index, the creation time and
    the last activation of the frame are as before. *)
Theorem Frame_setitem_getitem (frame : Frame.t) (key : string) (value : pyval) :
  let frame' := Frame.__setitem__ frame key value in
  Frame.__getitem__ frame' key = value
  /\ (forall other, other <> key ->
        Frame.__getitem__ frame' other = Frame.__getitem__ frame other)
  /\ same_history frame frame'.
Proof.
  simpl. unfold Frame.__getitem__. simpl. split_and!.
  - by rewrite dict_get_set_eq.
  - intros other Hne. by rewrite dict_get_set_ne.
  - done.
Qed.

(** X5: [frame[key] = value] keeps the names of a frame's items unique, and
    keeps their number and order when the key is there already. *)
Theorem Frame_setitem_items (frame : Frame.t) (key : string) (value : pyval) :
  NoDup (Frame.items frame).*1 ->
  NoDup (Frame.items (Frame.__setitem__ frame key value)).*1
  /\ (key ∈ (Frame.items frame).*1 ->
        (Frame.items (Frame.__setitem__ frame key value)).*1
        = (Frame.items frame).*1)
  /\ (key ∉ (Frame.items frame).*1 ->
        Frame.items (Frame.__setitem__ frame key value)
        = Frame.items frame ++ [(key, value)]).
Proof.
  intros Hnd. unfold Frame.items. simpl. split_and!.
  - by apply dict_set_NoDup.
  - apply dict_set_keys_in.
  - apply dict_set_fresh.
Qed.

Lemma Frame_setitem_items_witness :
  NoDup (Frame.items
           (Frame.__setitem__ (Frame.mk 0 [("city"%string, PyStr "NYC")] 1 (Some 1))
              "ref" (PyInt 0))).*1.
Proof.
  apply (Frame_setitem_items
           (Frame.mk 0 [("city"%string, PyStr "NYC")] 1 (Some 1)) "ref" (PyInt 0)).
  by apply (bool_decide_unpack _).
Defined.

(** ** FrameSet *)

Lemma list_getitem_in_range {A} (l : list A) (i : Z) (x : A) :
  0 <= i < Z.of_nat (length l) -> l !! Z.to_nat i = Some x ->
  list_getitem l i = Ok x.
Proof.
  intros Hi Hx. unfold list_getitem.
  by rewrite list_index_in_range, Hx.
Qed.

Lemma list_getitem_position {A} (l : list A) (i : Z) (p : nat) (x : A) :
  list_index (length l) i = Some p -> l !! p = Some x -> list_getitem l i = Ok x.
Proof. intros Hi Hx. unfold list_getitem. by rewrite Hi, Hx. Qed.

(** X6: [FrameSet(init_slots, created)] never raises on a mapping from
    names to Slots; the new FrameSet has one frame, with index 0, the
    framed-slot projection as its items, the creation time given and the
    same time as last activation; that frame is the current frame, and the
    indices are dense. *)
Theorem FrameSet_init (init_slots : dict Slot.t) (created : Z) :
  let frame :=
    {| Frame.idx := 0;
       Frame.slots := projection init_slots;
       Frame.created := created;
       Frame.last_active := Some created |} in
  exists self,
    FrameSet.__init__ init_slots created = Ok self
    /\ FrameSet.frames self = [frame]
    /\ FrameSet.current_frame_idx self = Some 0
    /\ FrameSet.current_frame self = Ok frame
    /\ Frame.items frame = projection init_slots
    /\ dense self.
Proof.
  intros frame. unfold FrameSet.__init__.
  rewrite get_framed_slots_slots. simpl.
  eexists. split_and!; try done.
  intros [|i] f; simpl; [by intros [= <-] | done].
Qed.

(** X7: after [reset] there is no frame and no current frame: reading the
    current frame raises TypeError, and still does after a frame has been
    added, since [add_frame] leaves the active index at [None]; the frame
    added is numbered 0. *)
Theorem FrameSet_reset_current_frame (self : FrameSet.t) (slots : dict Slot.t)
    (created : Z) (switch_to : bool) :
  let cleared := (FrameSet.reset self).1 in
  let added := FrameSet.add_frame (slot_objs slots) created switch_to cleared in
  FrameSet.frames cleared = []
  /\ FrameSet.current_frame cleared = Raise TypeError
  /\ (exists frame, added.2 = Ok frame /\ Frame.idx frame = 0
                    /\ FrameSet.frames added.1 = [frame])
  /\ FrameSet.current_frame added.1 = Raise TypeError.
Proof.
  simpl. unfold FrameSet.add_frame. rewrite get_framed_slots_slots. simpl.
  split_and!; try done. by eexists.
Qed.

(** X8: after [activate_frame] at an index within the frames, the current
    frame is the frame at that index, with the time given as its last
    activation. *)
Theorem FrameSet_activate_current_frame (self : FrameSet.t) (i timestamp : Z)
    (f : Frame.t) :
  0 <= i < Z.of_nat (length (FrameSet.frames self)) ->
  FrameSet.frames self !! Z.to_nat i = Some f ->
  FrameSet.current_frame (FrameSet.activate_frame i timestamp self).1
  = Ok (Frame.set_last_active timestamp f).
Proof.
  intros Hi Hf. unfold FrameSet.activate_frame.
  rewrite update_frame_in_range by done. unfold FrameSet.current_frame. simpl.
  apply list_getitem_in_range.
  - by rewrite length_alter.
  - by rewrite list_lookup_alter_eq, Hf.
Qed.

Lemma FrameSet_activate_current_frame_witness :
  FrameSet.current_frame
    (FrameSet.activate_frame 0 9 (session "NYC")).1
  = Ok (Frame.set_last_active 9 (Frame.mk 0 [("city"%string, PyStr "NYC")] 1 (Some 1))).
Proof.
  apply (FrameSet_activate_current_frame (session "NYC") 0 9).
  - simpl. lia.
  - reflexivity.
Defined.

(** X9: an index [i] with [-n <= i < 0], for [n] frames, is accepted by
    [activate_frame]: the frame at position [n + i] gets the time given as
    last activation, every other frame stays, and the active index is the
    negative [i] itself. *)
Theorem FrameSet_activate_negative (self : FrameSet.t) (i timestamp : Z) :
  - Z.of_nat (length (FrameSet.frames self)) <= i < 0 ->
  let p := Z.to_nat (Z.of_nat (length (FrameSet.frames self)) + i) in
  FrameSet.activate_frame i timestamp self
  = ({| FrameSet.init_slots := FrameSet.init_slots self;
        FrameSet.created := FrameSet.created self;
        FrameSet.frames :=
          alter (Frame.set_last_active timestamp) p (FrameSet.frames self);
        FrameSet.current_frame_idx := Some i |}, Ok ()).
Proof.
  intros Hi p. unfold FrameSet.activate_frame, FrameSet.update_frame. simpl.
  unfold list_index.
  rewrite bool_decide_eq_false_2 by lia. by rewrite bool_decide_eq_true_2.
Qed.

Lemma FrameSet_activate_negative_witness :
  FrameSet.activate_frame (-1) 9 (session_with "NYC" "LA" false)
  = ({| FrameSet.init_slots := city "NYC";
        FrameSet.created := 1;
        FrameSet.frames :=
          alter (Frame.set_last_active 9) 1%nat
            (FrameSet.frames (session_with "NYC" "LA" false));
        FrameSet.current_frame_idx := Some (-1) |}, Ok ()).
Proof.
  apply (FrameSet_activate_negative (session_with "NYC" "LA" false) (-1) 9).
  simpl. lia.
Defined.

(** X10: activating the same index twice is the same as activating it once
    with the later time, whether the index is within the frames or not. *)
Theorem FrameSet_activate_twice (self : FrameSet.t) (i t1 t2 : Z) :
  FrameSet.activate_frame i t2 (FrameSet.activate_frame i t1 self).1
  = FrameSet.activate_frame i t2 self.
Proof.
  unfold FrameSet.activate_frame, FrameSet.update_frame. simpl.
  destruct (list_index (length (FrameSet.frames self)) i) as [p|] eqn:Hp; simpl.
  - rewrite length_alter, Hp. do 2 f_equal.
    rewrite list_alter_alter_eq. by apply list_alter_ext.
  - by rewrite Hp.
Qed.

(** X11: [add_frame] on a mapping from names to Slots does not change the
    current frame, when the active index is within the frames and not
    negative. *)
Theorem FrameSet_add_frame_current_frame (self : FrameSet.t) (slots : dict Slot.t)
    (created : Z) (switch_to : bool) (i : Z) :
  FrameSet.current_frame_idx self = Some i ->
  0 <= i < Z.of_nat (length (FrameSet.frames self)) ->
  FrameSet.current_frame
    (FrameSet.add_frame (slot_objs slots) created switch_to self).1
  = FrameSet.current_frame self.
Proof.
  intros Hidx Hi. unfold FrameSet.add_frame.
  rewrite get_framed_slots_slots. unfold FrameSet.current_frame. simpl.
  rewrite Hidx. unfold list_getitem.
  rewrite !list_index_in_range by (rewrite ?length_app; simpl; lia).
  rewrite lookup_app_l by lia. done.
Qed.

Lemma FrameSet_add_frame_current_frame_witness :
  FrameSet.current_frame
    (FrameSet.add_frame (slot_objs (city "LA")) 2 true (session "NYC")).1
  = FrameSet.current_frame (session "NYC").
Proof.
  apply (FrameSet_add_frame_current_frame (session "NYC") (city "LA") 2 true 0).
  - reflexivity.
  - simpl. lia.
Defined.

(** ** Writing into the current frame *)

Lemma list_index_position (n : nat) (i : Z) (p : nat) :
  list_index n i = Some p -> (p < n)%nat.
Proof.
  unfold list_index. intros H.
  repeat case_bool_decide; simplify_eq; lia.
Qed.

Lemma alter_at_position {A} (g : A -> A) (l : list A) (p : nat) (x : A) :
  l !! p = Some x -> alter g p l = <[p := g x]> l.
Proof.
  intros Hx. apply list_eq. intros j. destruct (decide (j = p)) as [->|Hne].
  - rewrite list_lookup_alter_eq, Hx. simpl.
    rewrite list_lookup_insert_eq; [done|]. by eapply lookup_lt_Some.
  - by rewrite list_lookup_alter_ne, list_lookup_insert_ne.
Qed.

Lemma with_frames_same (self : FrameSet.t) :
  with_frames (FrameSet.frames self) self = self.
Proof. by destruct self. Qed.

Lemma with_frame_set_same (tracker : DialogueStateTracker.t) :
  with_frame_set (DialogueStateTracker.frames tracker) tracker = tracker.
Proof. by destruct tracker. Qed.

(** Where the current frame is, when there is one. *)
Lemma current_frame_position (self : FrameSet.t) (f : Frame.t) :
  FrameSet.current_frame self = Ok f ->
  exists i p,
    FrameSet.current_frame_idx self = Some i
    /\ list_index (length (FrameSet.frames self)) i = Some p
    /\ FrameSet.frames self !! p = Some f.
Proof.
  unfold FrameSet.current_frame, list_getitem.
  destruct (FrameSet.current_frame_idx self) as [i|]; [|done].
  destruct (list_index _ i) as [p|] eqn:Hp; [|done].
  destruct (FrameSet.frames self !! p) as [x|] eqn:Hx; [|done].
  intros [= <-]. exists i, p. by rewrite Hp.
Qed.

Lemma current_frame_setitem_position (self : FrameSet.t) (i : Z) (p : nat)
    (key : string) (value : pyval) :
  FrameSet.current_frame_idx self = Some i ->
  list_index (length (FrameSet.frames self)) i = Some p ->
  FrameSet.current_frame_setitem key value self
  = (with_frames
       (alter (fun f => Frame.__setitem__ f key value) p (FrameSet.frames self))
       self, Ok ()).
Proof.
  intros Hi Hp. unfold FrameSet.current_frame_setitem, FrameSet.update_frame.
  destruct self as [init created frs idx]. simpl in *. subst idx.
  by rewrite Hp.
Qed.

(** Without a current frame the write raises what the read raises, and
    writes nothing. *)
Lemma current_frame_setitem_raise (self : FrameSet.t) (e : exn)
    (key : string) (value : pyval) :
  FrameSet.current_frame self = Raise e ->
  FrameSet.current_frame_setitem key value self = (self, Raise e).
Proof.
  unfold FrameSet.current_frame, FrameSet.current_frame_setitem,
    FrameSet.update_frame, list_getitem.
  destruct (FrameSet.current_frame_idx self) as [i|]; [|by intros [= <-]].
  destruct (list_index _ i) as [p|] eqn:Hp; [|by intros [= <-]].
  apply list_index_position in Hp.
  apply lookup_lt_is_Some_2 in Hp as [x Hx]. by rewrite Hx.
Qed.

Lemma copy_into_cons (f : Frame.t) (key : string) (value : pyval)
    (rest : list (string * pyval)) :
  copy_into f ((key, value) :: rest)
  = copy_into (Frame.__setitem__ f key value) rest.
Proof. reflexivity. Qed.

Lemma copy_into_history (l : list (string * pyval)) (f : Frame.t) :
  same_history f (copy_into f l).
Proof.
  revert f. induction l as [|[k v] rest IH]; intros f.
  - done.
  - rewrite copy_into_cons. destruct (IH (Frame.__setitem__ f k v)) as (? & ? & ?).
    split_and!; simpl in *; congruence.
Qed.

Lemma dict_get_fresh {V} (d : dict V) (k : string) :
  k ∉ d.*1 -> dict_get d k = None.
Proof. apply dict_get_None_keys. Qed.

(** What the frame reads after the copy: the value copied for a name of
    the copy, the old value for any other name. *)
Lemma copy_into_getitem (l : list (string * pyval)) (f : Frame.t) (name : string) :
  NoDup l.*1 ->
  Frame.__getitem__ (copy_into f l) name
  = match dict_get l name with
    | Some v => v
    | None => Frame.__getitem__ f name
    end.
Proof.
  revert f. induction l as [|[k v] rest IH]; intros f Hnd.
  - done.
  - apply NoDup_cons in Hnd as [Hk Hnd].
    rewrite copy_into_cons, IH by done. simpl.
    case_bool_decide as Hkn.
    + subst k. rewrite (dict_get_fresh rest name Hk).
      unfold Frame.__getitem__. simpl. by rewrite dict_get_set_eq.
    + destruct (dict_get rest name); [done|].
      unfold Frame.__getitem__. simpl. by rewrite dict_get_set_ne.
Qed.

(** The loop of the last branch, run with a current frame. *)
Lemma copy_framed_slots_position (l : list (string * pyval))
    (tracker : DialogueStateTracker.t) (i : Z) (p : nat) :
  FrameSet.current_frame_idx (DialogueStateTracker.frames tracker) = Some i ->
  list_index (length (FrameSet.frames (DialogueStateTracker.frames tracker))) i
    = Some p ->
  RuleBasedFrameTracker.copy_framed_slots l tracker
  = (with_frame_set
       (with_frames
          (alter (fun f => copy_into f l) p
             (FrameSet.frames (DialogueStateTracker.frames tracker)))
          (DialogueStateTracker.frames tracker))
       tracker, Ok ()).
Proof.
  revert tracker. induction l as [|[k v] rest IH]; intros tracker Hi Hp.
  - simpl. unfold py_ret.
    rewrite list_alter_id by done.
    by rewrite with_frames_same, with_frame_set_same.
  - cbn [RuleBasedFrameTracker.copy_framed_slots]. unfold py_bind at 1.
    unfold on_frames at 1.
    rewrite (current_frame_setitem_position _ i p) by done.
    rewrite (IH _) by (simpl; rewrite ?length_alter; done).
    simpl. rewrite list_alter_alter_eq. done.
Qed.

Lemma copy_framed_slots_raise (key : string) (value : pyval)
    (rest : list (string * pyval)) (tracker : DialogueStateTracker.t) (e : exn) :
  FrameSet.current_frame (DialogueStateTracker.frames tracker) = Raise e ->
  RuleBasedFrameTracker.copy_framed_slots ((key, value) :: rest) tracker
  = (tracker, Raise e).
Proof.
  intros He. cbn [RuleBasedFrameTracker.copy_framed_slots].
  unfold py_bind, on_frames.
  rewrite (current_frame_setitem_raise _ e) by done.
  by destruct tracker.
Qed.

(** ** The branches of update_frames *)

Lemma acts_with_ref_inform : "inform"%string ∈ RuleBasedFrameTracker.acts_with_ref.
Proof. by apply (bool_decide_unpack _). Qed.

Lemma acts_with_ref_switch_frame :
  "switch_frame"%string ∈ RuleBasedFrameTracker.acts_with_ref.
Proof. by apply (bool_decide_unpack _). Qed.

Lemma update_frames_inform (u : UserUttered.t) (tracker : DialogueStateTracker.t) :
  UserUttered.intent u = "inform"%string ->
  RuleBasedFrameTracker.update_frames u tracker
  = (RuleBasedFrameTracker.handle_inform u ;;; py_ret [])%py tracker.
Proof.
  intros Hact. unfold RuleBasedFrameTracker.update_frames.
  by rewrite Hact.
Qed.

Lemma update_frames_switch_frame (u : UserUttered.t)
    (tracker : DialogueStateTracker.t) :
  UserUttered.intent u = "switch_frame"%string ->
  RuleBasedFrameTracker.update_frames u tracker
  = (RuleBasedFrameTracker.handle_switch_frame u ;;; py_ret [])%py tracker.
Proof.
  intros Hact. unfold RuleBasedFrameTracker.update_frames.
  by rewrite Hact.
Qed.

Lemma update_frames_ref_act (u : UserUttered.t) (tracker : DialogueStateTracker.t) :
  ref_act (UserUttered.intent u) ->
  RuleBasedFrameTracker.update_frames u tracker
  = (RuleBasedFrameTracker.handle_act_with_ref u ;;; py_ret [])%py tracker.
Proof.
  intros (Hin & Hinform & Hswitch). unfold RuleBasedFrameTracker.update_frames.
  cbv zeta.
  rewrite (bool_decide_eq_false_2 (_ = "inform"%string)) by done.
  rewrite (bool_decide_eq_false_2 (_ = "switch_frame"%string)) by done.
  by rewrite (bool_decide_eq_true_2 (_ ∈ _)) by done.
Qed.

Lemma update_frames_other_act (u : UserUttered.t) (tracker : DialogueStateTracker.t) :
  other_act (UserUttered.intent u) ->
  RuleBasedFrameTracker.update_frames u tracker
  = (RuleBasedFrameTracker.copy_framed_slots
       (projection (DialogueStateTracker.slots tracker)) ;;; py_ret [])%py tracker.
Proof.
  intros Hout. unfold RuleBasedFrameTracker.update_frames. cbv zeta.
  assert (UserUttered.intent u <> "inform"%string) as Hinform.
  { intros Heq. apply Hout. rewrite Heq. apply acts_with_ref_inform. }
  assert (UserUttered.intent u <> "switch_frame"%string) as Hswitch.
  { intros Heq. apply Hout. rewrite Heq. apply acts_with_ref_switch_frame. }
  rewrite (bool_decide_eq_false_2 (_ = "inform"%string)) by done.
  rewrite (bool_decide_eq_false_2 (_ = "switch_frame"%string)) by done.
  rewrite (bool_decide_eq_false_2 (_ ∈ _)) by done.
  unfold py_bind, py_read. by rewrite get_framed_slots_slots.
Qed.

(** X12: an utterance whose act is none of the listed ones, with a current
    frame: every framed slot is written into the current frame.  The frame
    then reads the projected value for every name of the projection and
    its old value for any other name; it keeps its index, creation time
    and last activation; no other frame changes, and no event is
    returned. *)
Theorem update_frames_other_act_copies (u : UserUttered.t)
    (tracker : DialogueStateTracker.t) (f : Frame.t) :
  other_act (UserUttered.intent u) ->
  FrameSet.current_frame (DialogueStateTracker.frames tracker) = Ok f ->
  exists (p : nat) (f' : Frame.t),
    FrameSet.frames (DialogueStateTracker.frames tracker) !! p = Some f
    /\ RuleBasedFrameTracker.update_frames u tracker
       = (with_frame_set
            (with_frames
               (<[p := f']> (FrameSet.frames (DialogueStateTracker.frames tracker)))
               (DialogueStateTracker.frames tracker))
            tracker, Ok [])
    /\ same_history f f'
    /\ forall name,
         Frame.__getitem__ f' name
         = match dict_get (projection (DialogueStateTracker.slots tracker)) name with
           | Some v => v
           | None => Frame.__getitem__ f name
           end.
Proof.
  intros Hact Hf.
  destruct (current_frame_position _ _ Hf) as (i & p & Hi & Hp & Hlook).
  exists p, (copy_into f (projection (DialogueStateTracker.slots tracker))).
  split_and!.
  - done.
  - rewrite update_frames_other_act by done. unfold py_bind at 1.
    rewrite (copy_framed_slots_position _ _ i p) by done.
    by rewrite (alter_at_position _ _ _ f).
  - apply copy_into_history.
  - intros name. apply copy_into_getitem. apply projection_NoDup.
Qed.

Lemma update_frames_other_act_copies_witness :
  exists (p : nat) (f' : Frame.t),
    FrameSet.frames (session "NYC") !! p
      = Some (Frame.mk 0 [("city"%string, PyStr "NYC")] 1 (Some 1))
    /\ RuleBasedFrameTracker.update_frames (utterance "greet")
         (tracker_of (city "LA") (session "NYC"))
       = (with_frame_set
            (with_frames (<[p := f']> (FrameSet.frames (session "NYC")))
               (session "NYC"))
            (tracker_of (city "LA") (session "NYC")), Ok [])
    /\ same_history (Frame.mk 0 [("city"%string, PyStr "NYC")] 1 (Some 1)) f'
    /\ forall name,
         Frame.__getitem__ f' name
         = match dict_get (projection (city "LA")) name with
           | Some v => v
           | None =>
               Frame.__getitem__
                 (Frame.mk 0 [("city"%string, PyStr "NYC")] 1 (Some 1)) name
           end.
Proof.
  apply (update_frames_other_act_copies (utterance "greet")
           (tracker_of (city "LA") (session "NYC"))).
  - by apply (bool_decide_unpack _).
  - reflexivity.
Defined.



(** X14: an utterance whose act carries a reference, without any framed
    slot and with a current frame: the [ref] entry of the current frame is
    set to the current frame index the tracker holds ([None] when it holds
    none); nothing else changes, and no event is returned. *)
Theorem update_frames_ref_act_unframed (u : UserUttered.t)
    (tracker : DialogueStateTracker.t) (f : Frame.t) :
  ref_act (UserUttered.intent u) ->
  projection (DialogueStateTracker.slots tracker) = [] ->
  FrameSet.current_frame (DialogueStateTracker.frames tracker) = Ok f ->
  exists p : nat,
    FrameSet.frames (DialogueStateTracker.frames tracker) !! p = Some f
    /\ RuleBasedFrameTracker.update_frames u tracker
       = (with_frame_set
            (with_frames
               (<[p := Frame.__setitem__ f "ref"
                         (of_opt_int (DialogueStateTracker.current_frame_idx tracker))]>
                  (FrameSet.frames (DialogueStateTracker.frames tracker)))
               (DialogueStateTracker.frames tracker))
            tracker, Ok []).
Proof.
  intros Hact Hnil Hf.
  destruct (current_frame_position _ _ Hf) as (i & p & Hi & Hp & Hlook).
  exists p. split; [done|].
  rewrite update_frames_ref_act by done. unfold py_bind at 1.
  rewrite handle_act_with_ref_unframed by done. unfold on_frames.
  rewrite (current_frame_setitem_position _ i p) by done.
  by rewrite (alter_at_position _ _ _ f).
Qed.

Lemma update_frames_ref_act_unframed_witness :
  exists p : nat,
    FrameSet.frames (session "NYC") !! p
      = Some (Frame.mk 0 [("city"%string, PyStr "NYC")] 1 (Some 1))
    /\ RuleBasedFrameTracker.update_frames (utterance "affirm")
         (tracker_of no_framed_slot (session "NYC"))
       = (with_frame_set
            (with_frames
               (<[p := Frame.__setitem__
                         (Frame.mk 0 [("city"%string, PyStr "NYC")] 1 (Some 1))
                         "ref" (of_opt_int (Some 0))]>
                  (FrameSet.frames (session "NYC")))
               (session "NYC"))
            (tracker_of no_framed_slot (session "NYC")), Ok []).
Proof.
  apply (update_frames_ref_act_unframed (utterance "affirm")
           (tracker_of no_framed_slot (session "NYC"))).
  - split_and!; [by apply (bool_decide_unpack _) | discriminate | discriminate].
  - reflexivity.
  - reflexivity.
Defined.



(** ** What an utterance can do to the frames *)

Lemma handle_inform_framed (u : UserUttered.t) (tracker : DialogueStateTracker.t) :
  projection (DialogueStateTracker.slots tracker) <> [] ->
  RuleBasedFrameTracker.handle_inform u tracker
  = (tracker,
     match RuleBasedFrameTracker.inform_loop tracker
             (projection (DialogueStateTracker.slots tracker)) with
     | Ok true => Ok ()
     | Ok false => Raise AttributeError
     | Raise e => Raise e
     end).
Proof.
  intros Hne.
  destruct (RuleBasedFrameTracker.inform_loop _ _) as [[|]|e] eqn:Hloop.
  - by apply handle_inform_break.
  - by apply handle_inform_agree.
  - unfold RuleBasedFrameTracker.handle_inform, py_bind, py_read.
    by rewrite get_framed_slots_slots, Hloop.
Qed.





Lemma same_history_refl (f : Frame.t) : same_history f f.
Proof. done. Qed.

Lemma frames_kept_refl (frs : list Frame.t) : frames_kept frs frs.
Proof. intros i f Hf. exists f. split; [done | apply same_history_refl]. Qed.

Lemma frames_kept_alter (g : Frame.t -> Frame.t) (p : nat) (frs : list Frame.t) :
  (forall f, same_history f (g f)) -> frames_kept frs (alter g p frs).
Proof.
  intros Hg i f Hf. destruct (decide (i = p)) as [->|Hne].
  - exists (g f). by rewrite list_lookup_alter_eq, Hf.
  - exists f. rewrite list_lookup_alter_ne by done.
    split; [done | apply same_history_refl].
Qed.

Lemma frames_step_refl (frs : list Frame.t) : frames_step frs frs.
Proof. left. split; [done | apply frames_kept_refl]. Qed.

Lemma frames_step_alter (g : Frame.t -> Frame.t) (p : nat) (frs : list Frame.t) :
  (forall f, same_history f (g f)) -> frames_step frs (alter g p frs).
Proof.
  intros Hg. left. split; [apply length_alter | by apply frames_kept_alter].
Qed.

(** The state after a run that wrote nothing. *)
Lemma tracker_unchanged (tracker : DialogueStateTracker.t) :
  exists frs',
    tracker = with_frame_set (with_frames frs' (DialogueStateTracker.frames tracker)) tracker
    /\ frames_step (FrameSet.frames (DialogueStateTracker.frames tracker)) frs'.
Proof.
  exists (FrameSet.frames (DialogueStateTracker.frames tracker)).
  split; [|apply frames_step_refl].
  by rewrite with_frames_same, with_frame_set_same.
Qed.

(** Whatever the act, the tracker after [update_frames] is the tracker
    before with other frames, one step away. *)
Lemma update_frames_frames (u : UserUttered.t) (tracker : DialogueStateTracker.t) :
  exists frs',
    (RuleBasedFrameTracker.update_frames u tracker).1
    = with_frame_set (with_frames frs' (DialogueStateTracker.frames tracker)) tracker
    /\ frames_step (FrameSet.frames (DialogueStateTracker.frames tracker)) frs'.
Proof.
  destruct (decide (UserUttered.intent u = "inform"%string)) as [Hinform|Hinform].
  { rewrite update_frames_inform by done. unfold py_bind.
    destruct (projection (DialogueStateTracker.slots tracker)) as [|kv rest] eqn:Hproj.
    - rewrite handle_inform_unframed by done. simpl.
      eexists. split; [done|]. right. by eexists.
    - rewrite handle_inform_framed by (by rewrite Hproj).
      destruct (match RuleBasedFrameTracker.inform_loop _ _ with
                | Ok true => _ | Ok false => _ | Raise e => _ end);
        apply tracker_unchanged. }
  destruct (decide (UserUttered.intent u = "switch_frame"%string)) as [Hswitch|Hswitch].
  { rewrite update_frames_switch_frame by done. unfold py_bind.
    destruct (handle_switch_frame_raises u tracker) as [e ->].
    apply tracker_unchanged. }
  destruct (decide (UserUttered.intent u ∈ RuleBasedFrameTracker.acts_with_ref))
    as [Href|Hother].
  { assert (ref_act (UserUttered.intent u)) as Hact by done.
    rewrite update_frames_ref_act by done. unfold py_bind at 1.
    destruct (projection (DialogueStateTracker.slots tracker)) as [|kv rest] eqn:Hproj.
    - rewrite handle_act_with_ref_unframed by done. unfold on_frames.
      destruct (FrameSet.current_frame (DialogueStateTracker.frames tracker))
        as [f|e] eqn:Hf.
      + destruct (current_frame_position _ _ Hf) as (i & p & Hi & Hp & Hlook).
        rewrite (current_frame_setitem_position _ i p) by done. simpl.
        eexists. split; [done|]. by apply frames_step_alter.
      + rewrite (current_frame_setitem_raise _ e) by done.
        replace (_.1) with tracker by (by destruct tracker).
        apply tracker_unchanged.
    - rewrite handle_act_with_ref_framed by (by rewrite Hproj).
      apply tracker_unchanged. }
  assert (other_act (UserUttered.intent u)) as Hact by done.
  rewrite update_frames_other_act by done. unfold py_bind at 1.
  destruct (projection (DialogueStateTracker.slots tracker)) as [|[k v] rest] eqn:Hproj.
  - apply tracker_unchanged.
  - destruct (FrameSet.current_frame (DialogueStateTracker.frames tracker))
      as [f|e] eqn:Hf.
    + destruct (current_frame_position _ _ Hf) as (i & p & Hi & Hp & Hlook).
      rewrite (copy_framed_slots_position _ _ i p) by done.
      unfold py_ret. cbn [fst].
      eexists. split; [reflexivity|].
      apply frames_step_alter. intros f0. apply copy_into_history.
    + rewrite (copy_framed_slots_raise _ _ _ _ e) by done.
      apply tracker_unchanged.
Qed.

Lemma frames_step_kept (frs frs' : list Frame.t) :
  frames_step frs frs' ->
  frames_kept frs frs' /\ (length frs <= length frs' <= S (length frs))%nat.
Proof.
  intros [[Hlen Hkept] | (f & -> & Hidx)].
  - split; [done | lia].
  - split.
    + intros i x Hx. exists x. split; [|apply same_history_refl].
      rewrite lookup_app_l; [done|]. by eapply lookup_lt_Some.
    + rewrite length_app. simpl. lia.
Qed.

(** X18: whatever the dialogue act and whether it raises or not,
    [update_frames] changes neither the slots of the tracker nor the active
    index; it removes no frame and adds one at most; and every frame keeps
    its index, its creation time and its last activation: no utterance
    activates a frame. *)
Theorem update_frames_keeps_frames (u : UserUttered.t)
    (tracker : DialogueStateTracker.t) :
  let tracker' := (RuleBasedFrameTracker.update_frames u tracker).1 in
  DialogueStateTracker.slots tracker' = DialogueStateTracker.slots tracker
  /\ DialogueStateTracker.current_frame_idx tracker'
     = DialogueStateTracker.current_frame_idx tracker
  /\ FrameSet.current_frame_idx (DialogueStateTracker.frames tracker')
     = FrameSet.current_frame_idx (DialogueStateTracker.frames tracker)
  /\ frames_kept (FrameSet.frames (DialogueStateTracker.frames tracker))
       (FrameSet.frames (DialogueStateTracker.frames tracker'))
  /\ (length (FrameSet.frames (DialogueStateTracker.frames tracker))
      <= length (FrameSet.frames (DialogueStateTracker.frames tracker'))
      <= S (length (FrameSet.frames (DialogueStateTracker.frames tracker))))%nat.
Proof.
  intros tracker'. subst tracker'.
  destruct (update_frames_frames u tracker) as (frs' & -> & Hstep).
  apply frames_step_kept in Hstep as [Hkept Hlen].
  unfold with_frame_set, with_frames. cbn [DialogueStateTracker.slots
    DialogueStateTracker.frames DialogueStateTracker.current_frame_idx
    FrameSet.frames FrameSet.current_frame_idx].
  split_and!; [done | done | done | exact Hkept | lia | lia].
Qed.

(** X19: [update_frames] keeps the frame indices dense: when the frame at
    every position [i] has index [i] before the call, so it is after it,
    whatever the dialogue act. *)
Theorem update_frames_dense (u : UserUttered.t) (tracker : DialogueStateTracker.t) :
  dense (DialogueStateTracker.frames tracker) ->
  dense (DialogueStateTracker.frames
           (RuleBasedFrameTracker.update_frames u tracker).1).
Proof.
  intros Hdense.
  destruct (update_frames_frames u tracker) as (frs' & -> & Hstep). simpl.
  intros i f' Hf'. simpl in Hf'.
  destruct Hstep as [[Hlen Hkept] | (f & -> & Hidx)].
  - assert (i < length (FrameSet.frames (DialogueStateTracker.frames tracker)))%nat
      as Hi by (rewrite <- Hlen; by eapply lookup_lt_Some).
    apply lookup_lt_is_Some_2 in Hi as [f Hf].
    destruct (Hkept i f Hf) as (f'' & Hf'' & Hidx & _).
    rewrite Hf' in Hf''. injection Hf'' as <-.
    rewrite Hidx. by apply Hdense.
  - apply lookup_app_Some in Hf' as [Hf' | [Hge Hf']].
    + by apply Hdense.
    + apply list_lookup_singleton_Some in Hf' as [Hi <-]. rewrite Hidx. lia.
Qed.

Lemma update_frames_dense_witness :
  dense (DialogueStateTracker.frames
           (RuleBasedFrameTracker.update_frames (utterance "inform")
              (tracker_of no_framed_slot (session "NYC"))).1).
Proof.
  apply (update_frames_dense (utterance "inform")
           (tracker_of no_framed_slot (session "NYC"))).
  intros [|i] f; simpl; [intros [= <-]; reflexivity | intros [=]].
Defined.

(** ** More on the composition of the operations *)

(** X20: an utterance whose act carries a reference, without any framed
    slot and without a current frame (after [reset], or with an active
    index outside the frames), raises what reading the current frame
    raises, and the tracker is as before. *)
Theorem update_frames_ref_act_no_frame (u : UserUttered.t)
    (tracker : DialogueStateTracker.t) (e : exn) :
  ref_act (UserUttered.intent u) ->
  projection (DialogueStateTracker.slots tracker) = [] ->
  FrameSet.current_frame (DialogueStateTracker.frames tracker) = Raise e ->
  RuleBasedFrameTracker.update_frames u tracker = (tracker, Raise e).
Proof.
  intros Hact Hnil He. rewrite update_frames_ref_act by done.
  unfold py_bind at 1. rewrite handle_act_with_ref_unframed by done.
  unfold on_frames. rewrite (current_frame_setitem_raise _ e) by done.
  by destruct tracker.
Qed.

Lemma update_frames_ref_act_no_frame_witness :
  RuleBasedFrameTracker.update_frames (utterance "offer")
    (tracker_of no_framed_slot (FrameSet.activate_frame 5 9 (session "NYC")).1)
  = (tracker_of no_framed_slot (FrameSet.activate_frame 5 9 (session "NYC")).1,
     Raise IndexError).
Proof.
  apply (update_frames_ref_act_no_frame (utterance "offer")
           (tracker_of no_framed_slot (FrameSet.activate_frame 5 9 (session "NYC")).1)).
  - split_and!; [by apply (bool_decide_unpack _) | discriminate | discriminate].
  - reflexivity.
  - reflexivity.
Defined.

Lemma dict_set_same {V} (d : dict V) (k : string) (v : V) :
  dict_get d k = Some v -> dict_set d k v = d.
Proof.
  induction d as [|[k' v'] d IH]; simpl; [done|].
  case_bool_decide as Hk.
  - by intros [= ->]; subst.
  - intros Hget. f_equal. by apply IH.
Qed.

Lemma copy_into_slots_get (l : list (string * pyval)) (f : Frame.t) (name : string) :
  NoDup l.*1 ->
  dict_get (Frame.slots (copy_into f l)) name
  = match dict_get l name with
    | Some v => Some v
    | None => dict_get (Frame.slots f) name
    end.
Proof.
  revert f. induction l as [|[k v] rest IH]; intros f Hnd.
  - done.
  - apply NoDup_cons in Hnd as [Hk Hnd].
    rewrite copy_into_cons, IH by done. simpl.
    case_bool_decide as Hkn.
    + subst k. rewrite (dict_get_fresh rest name Hk). apply dict_get_set_eq.
    + destruct (dict_get rest name); [done|]. by apply dict_get_set_ne.
Qed.

(** A frame that holds every entry of the copy already is not changed by
    the copy. *)
Lemma copy_into_same (l : list (string * pyval)) (f : Frame.t) :
  (forall k v, (k, v) ∈ l -> dict_get (Frame.slots f) k = Some v) ->
  copy_into f l = f.
Proof.
  induction l as [|[k v] rest IH]; intros Hall.
  - done.
  - rewrite copy_into_cons.
    assert (Frame.__setitem__ f k v = f) as ->.
    { unfold Frame.__setitem__. rewrite dict_set_same; [by destruct f|].
      apply Hall. apply list_elem_of_here. }
    apply IH. intros k' v' Hin. apply Hall. by apply list_elem_of_further.
Qed.

Lemma dict_get_elem_of {V} (d : dict V) (k : string) (v : V) :
  NoDup d.*1 -> (k, v) ∈ d -> dict_get d k = Some v.
Proof.
  induction d as [|[k' v'] d IH]; simpl; intros Hnd Hin.
  - by apply elem_of_nil in Hin.
  - apply NoDup_cons in Hnd as [Hk Hnd].
    apply elem_of_cons in Hin as [[= -> ->] | Hin].
    + by rewrite bool_decide_eq_true_2.
    + rewrite bool_decide_eq_false_2; [by apply IH|].
      intros ->. apply Hk. apply list_elem_of_fmap. by exists (k, v).
Qed.

Lemma copy_into_twice (l : list (string * pyval)) (f : Frame.t) :
  NoDup l.*1 -> copy_into (copy_into f l) l = copy_into f l.
Proof.
  intros Hnd. apply copy_into_same. intros k v Hin.
  rewrite copy_into_slots_get by done.
  by rewrite (dict_get_elem_of l k v).
Qed.

(** X21: for an utterance whose act is none of the listed ones,
    [update_frames] is idempotent: the same utterance a second time leaves
    the tracker as the first one left it and has the same outcome. *)
Theorem update_frames_other_act_twice (u : UserUttered.t)
    (tracker : DialogueStateTracker.t) :
  other_act (UserUttered.intent u) ->
  RuleBasedFrameTracker.update_frames u
    (RuleBasedFrameTracker.update_frames u tracker).1
  = RuleBasedFrameTracker.update_frames u tracker.
Proof.
  intros Hact.
  destruct (projection (DialogueStateTracker.slots tracker)) as [|[k v] rest] eqn:Hproj.
  { assert (RuleBasedFrameTracker.update_frames u tracker = (tracker, Ok [])) as Hrun.
    { rewrite update_frames_other_act by done. by rewrite Hproj. }
    rewrite Hrun. cbn [fst]. exact Hrun. }
  destruct (FrameSet.current_frame (DialogueStateTracker.frames tracker))
    as [f|e] eqn:Hf.
  - destruct (current_frame_position _ _ Hf) as (i & p & Hi & Hp & Hlook).
    pose (frs1 := alter (fun f => copy_into f ((k, v) :: rest)) p
                    (FrameSet.frames (DialogueStateTracker.frames tracker))).
    pose (tracker1 := with_frame_set
                        (with_frames frs1 (DialogueStateTracker.frames tracker))
                        tracker).
    assert (RuleBasedFrameTracker.update_frames u tracker = (tracker1, Ok [])) as Hrun.
    { rewrite update_frames_other_act by done. unfold py_bind at 1. rewrite Hproj.
      by rewrite (copy_framed_slots_position _ _ i p). }
    rewrite Hrun. cbn [fst].
    rewrite update_frames_other_act by done. unfold py_bind at 1.
    replace (projection (DialogueStateTracker.slots tracker1))
      with ((k, v) :: rest) by (by rewrite <- Hproj).
    rewrite (copy_framed_slots_position _ _ i p);
      [| done | subst tracker1 frs1; simpl; by rewrite length_alter].
    unfold py_ret. f_equal. subst tracker1 frs1.
    unfold with_frame_set, with_frames.
    cbn [DialogueStateTracker.slots DialogueStateTracker.frames
         DialogueStateTracker.current_frame_idx FrameSet.frames
         FrameSet.current_frame_idx FrameSet.init_slots FrameSet.created].
    rewrite list_alter_alter_eq. do 2 f_equal.
    apply list_alter_ext; [|done].
    intros x _. apply (copy_into_twice ((k, v) :: rest)).
    rewrite <- Hproj. apply projection_NoDup.
  - assert (RuleBasedFrameTracker.update_frames u tracker = (tracker, Raise e)) as Hrun.
    { rewrite update_frames_other_act by done. unfold py_bind at 1. rewrite Hproj.
      by rewrite (copy_framed_slots_raise _ _ _ _ e). }
    rewrite Hrun. cbn [fst]. exact Hrun.
Qed.

Lemma update_frames_other_act_twice_witness :
  RuleBasedFrameTracker.update_frames (utterance "greet")
    (RuleBasedFrameTracker.update_frames (utterance "greet")
       (tracker_of (city "LA") (session "NYC"))).1
  = RuleBasedFrameTracker.update_frames (utterance "greet")
      (tracker_of (city "LA") (session "NYC")).
Proof.
  apply (update_frames_other_act_twice (utterance "greet")
           (tracker_of (city "LA") (session "NYC"))).
  by apply (bool_decide_unpack _).
Defined.

(** X22: a negative active index does not follow its frame: with [n]
    frames and the active index [i], [-n <= i < 0], the current frame
    after [add_frame] is the frame one position further, and the new frame
    itself when [i] is -1. *)
Theorem FrameSet_add_frame_negative_index (self : FrameSet.t) (slots : dict Slot.t)
    (created : Z) (switch_to : bool) (i : Z) (g : Frame.t) :
  FrameSet.current_frame_idx self = Some i ->
  - Z.of_nat (length (FrameSet.frames self)) <= i < 0 ->
  let out := FrameSet.add_frame (slot_objs slots) created switch_to self in
  FrameSet.frames out.1
    !! S (Z.to_nat (Z.of_nat (length (FrameSet.frames self)) + i)) = Some g ->
  FrameSet.current_frame out.1 = Ok g.
Proof.
  intros Hidx Hi out. subst out. unfold FrameSet.add_frame.
  rewrite get_framed_slots_slots. unfold FrameSet.current_frame. simpl.
  rewrite Hidx. intros Hg.
  apply (list_getitem_position _ _
           (S (Z.to_nat (Z.of_nat (length (FrameSet.frames self)) + i)))); [|done].
  unfold list_index. rewrite length_app. simpl.
  rewrite bool_decide_eq_false_2 by lia.
  rewrite bool_decide_eq_true_2 by lia. f_equal. lia.
Qed.

Lemma FrameSet_add_frame_negative_index_witness :
  FrameSet.current_frame
    (FrameSet.add_frame (slot_objs (city "LA")) 2 false
       (FrameSet.activate_frame (-1) 9 (session "NYC")).1).1
  = Ok (Frame.mk 1 [("city"%string, PyStr "LA")] 2 None).
Proof.
  apply (FrameSet_add_frame_negative_index
           (FrameSet.activate_frame (-1) 9 (session "NYC")).1 (city "LA") 2 false (-1)).
  - reflexivity.
  - simpl. lia.
  - reflexivity.
Defined.
